(** * Bus booking service: seat inventory and booking ledger

    A shallow embedding of [FINAL-PYTHON-FAST-API-PROJECT.py] and the
    properties of its seat arithmetic and booking list.

    Conventions of the embedding.
    - Python [int] is unbounded, so every integer is a [Z].
    - Python [str] is a [string]; one [ascii] stands for one character.
      [str.lower] depends on the Unicode case tables, which are not part of
      the repository: it is the method of the class [Lower], and every
      general result holds for any such function. The instance
      [ascii_lower] folds the letters A-Z and serves to evaluate the model
      on ASCII names.
    - [datetime.now()] reads the wall clock: each reading is an explicit
      argument of the function that makes it.
    - The [Bus] objects live in the dictionary [_buses], which is filled
      once by [BusBookingSystem.__init__] and never modified afterwards. A
      [Booking] keeps a reference to one of these objects, not a copy: the
      reference is modelled by the key of the object in [_buses], so that a
      release through [booking.bus] is seen by every later lookup.
    - An exception is a value of [exn]; a method that can raise returns a
      [result] together with the state it leaves behind. *)

From Stdlib Require Import ZArith String Ascii List Lia Bool.
From stdpp Require Import base option list sorting gmap strings.

Local Open Scope Z_scope.

(** ** Text *)

Class Lower := lower : string -> string.

Definition len (s : string) : Z := Z.of_nat (String.length s).

Definition ascii_lower_char (c : ascii) : ascii :=
  let n := N_of_ascii c in
  if ((65 <=? n) && (n <=? 90))%N then ascii_of_N (n + 32) else c.

Fixpoint ascii_lower_string (s : string) : string :=
  match s with
  | EmptyString => EmptyString
  | String c rest => String (ascii_lower_char c) (ascii_lower_string rest)
  end.

(** ** Clock readings *)

Module datetime.

Record t := mk {
  year : Z; month : Z; day : Z;
  hour : Z; minute : Z; second : Z; microsecond : Z
}.

(** The ranges of the fields of a Python [datetime]. *)
Definition valid (d : t) : bool :=
  (1 <=? year d) && (year d <=? 9999) &&
  (1 <=? month d) && (month d <=? 12) &&
  (1 <=? day d) && (day d <=? 31) &&
  (0 <=? hour d) && (hour d <=? 23) &&
  (0 <=? minute d) && (minute d <=? 59) &&
  (0 <=? second d) && (second d <=? 59) &&
  (0 <=? microsecond d) && (microsecond d <=? 999999).

Definition digit (n : Z) : ascii := ascii_of_N (Z.to_N (48 + n mod 10)).

Definition pad2 (n : Z) (k : string) : string :=
  String (digit (n / 10)) (String (digit n) k).

Definition pad4 (n : Z) (k : string) : string :=
  String (digit (n / 1000)) (String (digit (n / 100)) (pad2 n k)).

Definition pad6 (n : Z) (k : string) : string :=
  String (digit (n / 100000)) (String (digit (n / 10000)) (pad4 n k)).

(** [d.strftime('%Y%m%d%H%M%S')], the year zero-filled to four digits as
    the format is documented. *)
Definition strftime_YmdHMS (d : t) : string :=
  pad4 (year d) (pad2 (month d) (pad2 (day d)
    (pad2 (hour d) (pad2 (minute d) (pad2 (second d) EmptyString))))).

(** [d.isoformat()]: the fraction is printed only when it is not zero. *)
Definition isoformat (d : t) : string :=
  pad4 (year d) (String "-" (pad2 (month d) (String "-" (pad2 (day d)
    (String "T" (pad2 (hour d) (String ":" (pad2 (minute d) (String ":"
      (pad2 (second d)
        (if microsecond d =? 0 then EmptyString
         else String "." (pad6 (microsecond d) EmptyString)))))))))))).

(** The part of a reading that [strftime_YmdHMS] prints. *)
Definition to_second (d : t) : Z * Z * Z * Z * Z * Z :=
  (year d, month d, day d, hour d, minute d, second d).

End datetime.

(** ** Exceptions *)

Module status.
Definition HTTP_400_BAD_REQUEST : Z := 400.
Definition HTTP_404_NOT_FOUND : Z := 404.
Definition HTTP_500_INTERNAL_SERVER_ERROR : Z := 500.
End status.

Inductive exn :=
  | HTTPException (status_code : Z) (detail : string)
  | Exception (msg : string).

Inductive result (A : Type) :=
  | Return (a : A)
  | Raise (e : exn).
Arguments Return {A} a.
Arguments Raise {A} e.

(** ** Request and response models *)

Module BusResponse.
Record t := mk {
  bus_id : Z; route : string; time : string; fare : Z; seats_available : Z
}.
End BusResponse.

Module BookingRequest.

Record t := mk { name : string; bus_id : Z; seats : Z }.

(** The [Field] constraints: [min_length=1, max_length=100] on [name],
    [gt=0] on [bus_id], [gt=0, le=30] on [seats]. *)
Definition valid (r : t) : bool :=
  (1 <=? len (name r)) && (len (name r) <=? 100) &&
  (0 <? bus_id r) &&
  (0 <? seats r) && (seats r <=? 30).

(** Building the model from its three fields: [None] stands for the
    validation error that the constructor raises. *)
Definition validate (name : string) (bus_id seats : Z) : option t :=
  let r := mk name bus_id seats in
  if valid r then Some r else None.

End BookingRequest.

Module BookingResponse.
Record t := mk {
  booking_id : string; name : string; bus_id : Z; route : string;
  time : string; seats : Z; total_fare : Z; booking_time : string
}.
End BookingResponse.

Module CancelRequest.

Record t := mk { name : string }.

Definition valid (r : t) : bool := 1 <=? len (name r).

Definition validate (name : string) : option t :=
  let r := mk name in
  if valid r then Some r else None.

End CancelRequest.

(** ** Bus *)

Module Bus.

Record t := mk {
  bus_id : Z; route : string; time : string; fare : Z;
  total_seats : Z; available_seats : Z
}.

(** [Bus.__init__]; the source gives [total_seats] the default 30. *)
Definition init (bus_id : Z) (route time : string) (fare total_seats : Z) : t :=
  mk bus_id route time fare total_seats total_seats.

Definition set_available_seats (b : t) (v : Z) : t :=
  mk (bus_id b) (route b) (time b) (fare b) (total_seats b) v.

Definition reserve_seats (b : t) (seats : Z) : bool * t :=
  if seats <=? available_seats b
  then (true, set_available_seats b (available_seats b - seats))
  else (false, b).

Definition release_seats (b : t) (seats : Z) : t :=
  set_available_seats b (Z.min (available_seats b + seats) (total_seats b)).

Definition to_response (b : t) : BusResponse.t :=
  BusResponse.mk (bus_id b) (route b) (time b) (fare b) (available_seats b).

End Bus.

(** ** Booking *)

Module Booking.

(** [bus] is the reference to the booked [Bus] object: its key in
    [_buses]. *)
Record t := mk {
  booking_id : string; name : string; bus : Z; seats : Z;
  total_fare : Z; booking_time : string
}.

(** [Booking.__init__(name, bus, seats)]: [bus] is the reference that is
    stored, [bus_obj] the object behind it, read for its fare. The clock
    is read twice, for the identifier and for the booking time. *)
Definition init (name : string) (bus : Z) (bus_obj : Bus.t) (seats : Z)
    (now_id now_time : datetime.t) : t :=
  mk (String.append "BK" (datetime.strftime_YmdHMS now_id))
     name bus seats (seats * Bus.fare bus_obj)
     (datetime.isoformat now_time).

Definition to_response (b : t) (bus_obj : Bus.t) : BookingResponse.t :=
  BookingResponse.mk (booking_id b) (name b) (Bus.bus_id bus_obj)
    (Bus.route bus_obj) (Bus.time bus_obj) (seats b) (total_fare b)
    (booking_time b).

End Booking.

(** ** The booking system *)

Module BusBookingSystem.

Record t := mk { buses : gmap Z Bus.t; bookings : list Booking.t }.

(** [BusBookingSystem.__init__]: the three seeded buses and an empty
    list of bookings. *)
Definition init : t :=
  mk (<[1 := Bus.init 1 "North Nazimabad - Power House" "09:00 AM" 500 30]>
      (<[2 := Bus.init 2 "KDA - Gulshan" "12:00 PM" 700 30]>
      (<[3 := Bus.init 3 "Ayesha Manzil - Bahria" "05:00 PM" 600 30]> ∅)))
     [].

(** The values of [_buses] in insertion order, which is the order of
    the keys: the dictionary is filled in increasing key order and its
    keys never change. *)
Definition key_le (x y : Z * Bus.t) : Prop := x.1 <= y.1.

#[global] Instance key_le_dec : RelDecision key_le :=
  fun x y => decide (x.1 <= y.1).

Definition get_all_buses (s : t) : list BusResponse.t :=
  Bus.to_response <$> (merge_sort key_le (map_to_list (buses s))).*2.

Definition get_bus (s : t) (bus_id : Z) : option Bus.t := buses s !! bus_id.

Definition create_booking (now_id now_time : datetime.t)
    (booking_data : BookingRequest.t) (s : t)
    : result BookingResponse.t * t :=
  match get_bus s (BookingRequest.bus_id booking_data) with
  | None => (Raise (HTTPException status.HTTP_404_NOT_FOUND "Bus not found"), s)
  | Some bus =>
      match Bus.reserve_seats bus (BookingRequest.seats booking_data) with
      | (false, _) =>
          (Raise (HTTPException status.HTTP_400_BAD_REQUEST
                    "Not enough seats available"), s)
      | (true, bus') =>
          let booking :=
            Booking.init (BookingRequest.name booking_data)
              (BookingRequest.bus_id booking_data) bus'
              (BookingRequest.seats booking_data) now_id now_time in
          (Return (Booking.to_response booking bus'),
           mk (<[BookingRequest.bus_id booking_data := bus']> (buses s))
              (bookings s ++ [booking]))
      end
  end.

(** The loop of [cancel_booking]: the index and the record of the first
    booking whose lowered name equals the lowered [name]; [i] is the
    index of the head of [l] in the whole list. *)
Fixpoint first_match `{!Lower} (name : string) (i : nat)
    (l : list Booking.t) : option (nat * Booking.t) :=
  match l with
  | [] => None
  | booking :: rest =>
      if String.eqb (lower (Booking.name booking)) (lower name)
      then Some (i, booking)
      else first_match name (S i) rest
  end.

Definition cancel_booking `{!Lower} (name : string) (s : t) : bool * t :=
  match first_match name 0 (bookings s) with
  | Some (i, booking) =>
      (true,
       mk (alter (fun b => Bus.release_seats b (Booking.seats booking))
             (Booking.bus booking) (buses s))
          (delete i (bookings s)))
  | None => (false, s)
  end.

(** A booking whose bus is missing from the store is skipped; no booking
    made by [create_booking] is in that case. *)
Definition get_all_bookings (s : t) : list BookingResponse.t :=
  omap (fun b => Booking.to_response b <$> buses s !! Booking.bus b)
       (bookings s).

End BusBookingSystem.

(** The abstract class [BookingSystem]: the three operations that a
    booking system offers, and [BusBookingSystem] as the one that
    implements them. *)
Class BookingSystem (S : Type) := {
  create_booking :
    datetime.t -> datetime.t -> BookingRequest.t -> S ->
    result BookingResponse.t * S;
  cancel_booking : string -> S -> bool * S;
  get_all_bookings : S -> list BookingResponse.t
}.

#[global] Instance BusBookingSystem_BookingSystem `{!Lower}
    : BookingSystem BusBookingSystem.t := {
  create_booking := BusBookingSystem.create_booking;
  cancel_booking := BusBookingSystem.cancel_booking;
  get_all_bookings := BusBookingSystem.get_all_bookings
}.

(** ** Endpoints *)

(** The endpoint functions as they are decorated, applied to the request
    object they are declared to take. *)
Module Api.

(** [error_handler]: an [HTTPException] is raised again, any other
    exception becomes a 500. [log_operation] only prints. *)
Definition error_handler {A : Type} (r : result A) : result A :=
  match r with
  | Return a => Return a
  | Raise (HTTPException c d) => Raise (HTTPException c d)
  | Raise (Exception e) =>
      Raise (HTTPException status.HTTP_500_INTERNAL_SERVER_ERROR
               (String.append "Internal server error: " e))
  end.

Definition get_buses (s : BusBookingSystem.t) : result (list BusResponse.t) :=
  error_handler (Return (BusBookingSystem.get_all_buses s)).

Definition book_ticket (now_id now_time : datetime.t)
    (booking_request : BookingRequest.t) (s : BusBookingSystem.t)
    : result BookingResponse.t * BusBookingSystem.t :=
  let (r, s') :=
    BusBookingSystem.create_booking now_id now_time booking_request s in
  (error_handler r, s').

Definition cancel_booking `{!Lower} (cancel_request : CancelRequest.t)
    (s : BusBookingSystem.t) : result string * BusBookingSystem.t :=
  let (found, s') :=
    BusBookingSystem.cancel_booking (CancelRequest.name cancel_request) s in
  (error_handler
     (if found then Return "Booking cancelled successfully"
      else Raise (HTTPException status.HTTP_404_NOT_FOUND "Booking not found")),
   s').

Definition get_bookings (s : BusBookingSystem.t)
    : result (list BookingResponse.t) :=
  error_handler (Return (BusBookingSystem.get_all_bookings s)).

End Api.

(** ** Runs of the public operations *)

Inductive op :=
  | CreateBooking (now_id now_time : datetime.t) (booking_data : BookingRequest.t)
  | CancelBooking (name : string)
  | GetAllBuses
  | GetAllBookings.

(** The arguments are values of their Python types: a [BookingRequest] has
    passed its validation and a clock reading is a [datetime]. *)
Definition op_valid (o : op) : bool :=
  match o with
  | CreateBooking now_id now_time booking_data =>
      datetime.valid now_id && datetime.valid now_time &&
      BookingRequest.valid booking_data
  | _ => true
  end.

Definition step `{!Lower} (o : op) (s : BusBookingSystem.t) : BusBookingSystem.t :=
  match o with
  | CreateBooking now_id now_time booking_data =>
      (BusBookingSystem.create_booking now_id now_time booking_data s).2
  | CancelBooking name => (BusBookingSystem.cancel_booking name s).2
  | GetAllBuses => s
  | GetAllBookings => s
  end.

Fixpoint run `{!Lower} (ops : list op) (s : BusBookingSystem.t) : BusBookingSystem.t :=
  match ops with
  | [] => s
  | o :: rest => run rest (step o s)
  end.

Definition reachable `{!Lower} (s : BusBookingSystem.t) : Prop :=
  exists ops, forallb op_valid ops = true /\ run ops BusBookingSystem.init = s.

(** The clock seconds at which the bookings of a run are requested. *)
Fixpoint create_seconds (ops : list op) : list (Z * Z * Z * Z * Z * Z) :=
  match ops with
  | [] => []
  | CreateBooking now_id _ _ :: rest => datetime.to_second now_id :: create_seconds rest
  | _ :: rest => create_seconds rest
  end.

(** ** Observations on a state *)

Definition available_seats_of (s : BusBookingSystem.t) (bus_id : Z) : option Z :=
  Bus.available_seats <$> BusBookingSystem.buses s !! bus_id.

(** The seats held by the bookings of [l] that refer to the bus [bus_id]. *)
Fixpoint booked_seats (bus_id : Z) (l : list Booking.t) : Z :=
  match l with
  | [] => 0
  | b :: rest =>
      (if Booking.bus b =? bus_id then Booking.seats b else 0)
      + booked_seats bus_id rest
  end.

(** What a run keeps true: a bus never has a negative number of available
    seats, its available seats are its total seats minus the seats booked
    on it, and every booking holds at least one seat. *)
Definition seats_inv (s : BusBookingSystem.t) : Prop :=
  (forall id r, BusBookingSystem.buses s !! id = Some r ->
     0 <= Bus.available_seats r /\
     Bus.available_seats r
     = Bus.total_seats r - booked_seats id (BusBookingSystem.bookings s)) /\
  Forall (fun b => 0 < Booking.seats b) (BusBookingSystem.bookings s).

(** Two bus records that agree on everything but the available seats. *)
Definition same_bus_but_seats (r r' : Bus.t) : Prop :=
  Bus.bus_id r' = Bus.bus_id r /\ Bus.route r' = Bus.route r /\
  Bus.time r' = Bus.time r /\ Bus.fare r' = Bus.fare r /\
  Bus.total_seats r' = Bus.total_seats r.

Definition matches `{!Lower} (name : string) (b : Booking.t) : Prop :=
  lower (Booking.name b) = lower name.

#[global] Instance ascii_lower : Lower := ascii_lower_string.

(** ** Sample data *)

Definition bus1 : Bus.t :=
  Bus.init 1 "North Nazimabad - Power House" "09:00 AM" 500 30.

(** Three clock readings: two in the same second, one a second later. *)
Definition t0 : datetime.t := datetime.mk 2024 5 17 9 30 15 0.
Definition t0' : datetime.t := datetime.mk 2024 5 17 9 30 15 250000.
Definition t1 : datetime.t := datetime.mk 2024 5 17 9 30 16 0.

Definition alice : BookingRequest.t := BookingRequest.mk "Alice" 1 5.
Definition bob : BookingRequest.t := BookingRequest.mk "Bob" 1 26.
Definition dave : BookingRequest.t := BookingRequest.mk "Dave" 2 1.

(** Alice holds five seats of bus 1. *)
Definition s_alice : BusBookingSystem.t :=
  run [CreateBooking t0 t0 alice] BusBookingSystem.init.

(** Two bookings under the name Carol, of two and of three seats. *)
Definition s_carol : BusBookingSystem.t :=
  run [CreateBooking t0 t0 (BookingRequest.mk "Carol" 1 2);
       CreateBooking t1 t1 (BookingRequest.mk "Carol" 1 3)]
    BusBookingSystem.init.

(** Carol holds three seats of bus 2. *)
Definition s_namesake : BusBookingSystem.t :=
  run [CreateBooking t0 t0 (BookingRequest.mk "Carol" 2 3)]
    BusBookingSystem.init.

(** Two bookings requested within one clock second. *)
Definition s_same_second : BusBookingSystem.t :=
  run [CreateBooking t0 t0 alice; CreateBooking t0' t0' dave]
    BusBookingSystem.init.


(** ** Further invariants of the runs *)

(** The dictionary of buses keeps its keys, and the bus under a key keeps
    every field but its available seats: it is the seeded bus up to
    [available_seats]. *)
Definition catalog_inv (s : BusBookingSystem.t) : Prop :=
  forall id,
    match BusBookingSystem.buses BusBookingSystem.init !! id,
          BusBookingSystem.buses s !! id with
    | Some r0, Some r => same_bus_but_seats r0 r
    | None, None => True
    | _, _ => False
    end.

(** A booking as [create_booking] makes it from a validated request: the
    seats and the name are within the bounds of [BookingRequest], the bus
    it refers to is in the dictionary, and the fare is the product of the
    seats and of the fare of that bus. *)
Definition booking_wf (s : BusBookingSystem.t) (b : Booking.t) : Prop :=
  1 <= Booking.seats b <= 30 /\
  1 <= len (Booking.name b) <= 100 /\
  exists r, BusBookingSystem.buses s !! Booking.bus b = Some r /\
            Booking.total_fare b = Booking.seats b * Bus.fare r.

Definition ledger_inv (s : BusBookingSystem.t) : Prop :=
  Forall (booking_wf s) (BusBookingSystem.bookings s).

(** * Properties *)

Section properties.

Context `{!Lower}.

Implicit Types (s : BusBookingSystem.t) (l pre post : list Booking.t).
Implicit Types (b : Booking.t) (name : string) (o : op).

(** Splits a hypothesis [b1 && ... && bn = true] into its conjuncts. *)
Ltac split_andb H := repeat (apply andb_prop in H as [H ?]).

(** ** The seat arithmetic of one bus *)

Lemma reserve_seats_true (r : Bus.t) (seats : Z) :
  seats <= Bus.available_seats r ->
  Bus.reserve_seats r seats
  = (true, Bus.set_available_seats r (Bus.available_seats r - seats)).
Proof.
  intros Hle. unfold Bus.reserve_seats.
  destruct (Z.leb_spec seats (Bus.available_seats r)); [reflexivity | lia].
Qed.

Lemma reserve_seats_false (r : Bus.t) (seats : Z) :
  Bus.available_seats r < seats -> Bus.reserve_seats r seats = (false, r).
Proof.
  intros Hlt. unfold Bus.reserve_seats.
  destruct (Z.leb_spec seats (Bus.available_seats r)); [lia | reflexivity].
Qed.

(** ** The scan of the booking list *)

Lemma first_match_cases name (i : nat) l :
  match BusBookingSystem.first_match name i l with
  | Some (j, b) =>
      exists pre post,
        l = pre ++ b :: post /\ j = (i + length pre)%nat /\
        Forall (fun x => ~ matches name x) pre /\ matches name b
  | None => Forall (fun x => ~ matches name x) l
  end.
Proof.
  revert i. induction l as [|a l IH]; intros i; simpl.
  - constructor.
  - destruct (String.eqb _ _) eqn:E.
    + apply String.eqb_eq in E. exists [], l. simpl.
      repeat split; [lia | constructor | exact E].
    + apply String.eqb_neq in E. specialize (IH (S i)).
      destruct (BusBookingSystem.first_match name (S i) l) as [[j b]|].
      * destruct IH as (pre & post & -> & -> & Hpre & Hb).
        exists (a :: pre), post. simpl.
        repeat split; [lia | constructor; assumption | exact Hb].
      * constructor; assumption.
Qed.

Lemma cancel_booking_cases name s :
  (exists pre b post,
      BusBookingSystem.bookings s = pre ++ b :: post /\
      Forall (fun x => ~ matches name x) pre /\ matches name b /\
      BusBookingSystem.cancel_booking name s
      = (true,
         BusBookingSystem.mk
           (alter (fun r => Bus.release_seats r (Booking.seats b))
              (Booking.bus b) (BusBookingSystem.buses s))
           (pre ++ post)))
  \/ (Forall (fun x => ~ matches name x) (BusBookingSystem.bookings s) /\
      BusBookingSystem.cancel_booking name s = (false, s)).
Proof.
  unfold BusBookingSystem.cancel_booking.
  pose proof (first_match_cases name 0 (BusBookingSystem.bookings s)) as Hm.
  destruct (BusBookingSystem.first_match name 0 (BusBookingSystem.bookings s))
    as [[j b]|].
  - left. destruct Hm as (pre & post & Heq & -> & Hpre & Hb).
    exists pre, b, post. repeat split; try assumption.
    rewrite Heq. simpl. rewrite delete_middle. reflexivity.
  - right. split; [assumption | reflexivity].
Qed.

(** ** The outcomes of [create_booking] *)

Lemma create_booking_cases (now_id now_time : datetime.t)
    (req : BookingRequest.t) s :
  let id := BookingRequest.bus_id req in
  let seats := BookingRequest.seats req in
  (BusBookingSystem.buses s !! id = None /\
   BusBookingSystem.create_booking now_id now_time req s
   = (Raise (HTTPException 404 "Bus not found"), s))
  \/ (exists r, BusBookingSystem.buses s !! id = Some r /\
        Bus.available_seats r < seats /\
        BusBookingSystem.create_booking now_id now_time req s
        = (Raise (HTTPException 400 "Not enough seats available"), s))
  \/ (exists r, BusBookingSystem.buses s !! id = Some r /\
        seats <= Bus.available_seats r /\
        let r' := Bus.set_available_seats r (Bus.available_seats r - seats) in
        let b := Booking.init (BookingRequest.name req) id r' seats
                   now_id now_time in
        BusBookingSystem.create_booking now_id now_time req s
        = (Return (Booking.to_response b r'),
           BusBookingSystem.mk (<[id := r']> (BusBookingSystem.buses s))
             (BusBookingSystem.bookings s ++ [b]))).
Proof.
  intros id seats. unfold BusBookingSystem.create_booking,
    BusBookingSystem.get_bus. fold id seats.
  destruct (BusBookingSystem.buses s !! id) as [r|] eqn:Hr.
  - right. destruct (Z_le_gt_dec seats (Bus.available_seats r)) as [Hle|Hgt].
    + right. exists r. rewrite (reserve_seats_true _ _ Hle).
      split; [reflexivity | split; [exact Hle | reflexivity]].
    + left. exists r. rewrite reserve_seats_false by lia.
      split; [reflexivity | split; [lia | reflexivity]].
  - left. split; reflexivity.
Qed.

(** ** Booked seats *)

Lemma booked_seats_app (id : Z) l1 l2 :
  booked_seats id (l1 ++ l2) = booked_seats id l1 + booked_seats id l2.
Proof. induction l1 as [|a l1 IH]; simpl; [reflexivity | rewrite IH; lia]. Qed.

Lemma booked_seats_nonneg (id : Z) l :
  Forall (fun b => 0 < Booking.seats b) l -> 0 <= booked_seats id l.
Proof.
  induction 1 as [|a l Ha _ IH]; simpl; [lia |].
  destruct (Booking.bus a =? id); lia.
Qed.

Lemma booked_seats_middle (id : Z) pre b post :
  booked_seats id (pre ++ b :: post)
  = booked_seats id (pre ++ post)
    + (if Booking.bus b =? id then Booking.seats b else 0).
Proof. rewrite !booked_seats_app. simpl. lia. Qed.

(** ** The invariant of the runs *)

Lemma seats_inv_init : seats_inv BusBookingSystem.init.
Proof.
  split; [| constructor].
  intros id r Hr. unfold BusBookingSystem.init in Hr. simpl in Hr.
  repeat (apply lookup_insert_Some in Hr as [[_ <-] | [_ Hr]]; [simpl; lia |]).
  rewrite lookup_empty in Hr. discriminate.
Qed.

Lemma seats_inv_create (now_id now_time : datetime.t)
    (req : BookingRequest.t) s :
  BookingRequest.valid req = true -> seats_inv s ->
  seats_inv (BusBookingSystem.create_booking now_id now_time req s).2.
Proof.
  intros Hv [Hb Hl].
  assert (0 < BookingRequest.seats req) as Hpos.
  { unfold BookingRequest.valid in Hv.
    split_andb Hv. lia. }
  destruct (create_booking_cases now_id now_time req s)
    as [[_ ->] | [(r & _ & _ & ->) | (r & Hr & Hle & ->)]];
    [split; assumption | split; assumption |].
  cbn zeta. unfold snd. split; simpl.
  - intros id r' Hr'. rewrite booked_seats_app. simpl.
    apply lookup_insert_Some in Hr' as [[<- <-] | [Hne Hr']].
    + destruct (Hb _ _ Hr) as [H0 Heq]. rewrite Z.eqb_refl. simpl. lia.
    + destruct (Hb _ _ Hr') as [H0 Heq].
      destruct (Z.eqb_spec (BookingRequest.bus_id req) id); [contradiction | lia].
  - apply Forall_app. split; [assumption |].
    constructor; [exact Hpos | constructor].
Qed.

Lemma seats_inv_cancel name s :
  seats_inv s -> seats_inv (BusBookingSystem.cancel_booking name s).2.
Proof.
  intros [Hb Hl].
  destruct (cancel_booking_cases name s)
    as [(pre & b & post & Heq & _ & _ & ->) | [_ ->]];
    [| split; assumption].
  rewrite Heq in Hb, Hl. unfold snd.
  assert (Forall (fun x => 0 < Booking.seats x) (pre ++ post)) as Hl'.
  { apply Forall_app in Hl as [Hpre Hpost]. apply Forall_app.
    split; [assumption | inversion Hpost; assumption]. }
  assert (0 < Booking.seats b) as Hpos.
  { apply Forall_app in Hl as [_ Hpost]. inversion Hpost; assumption. }
  split; simpl; [| exact Hl'].
  intros id r' Hr'.
  pose proof (booked_seats_nonneg id _ Hl') as Hnn.
  destruct (decide (Booking.bus b = id)) as [<- | Hne].
  - rewrite lookup_alter_eq in Hr'.
    destruct (BusBookingSystem.buses s !! Booking.bus b) as [r|] eqn:Hr;
      [| discriminate].
    simpl in Hr'. injection Hr' as <-.
    destruct (Hb _ _ Hr) as [H0 Hsum].
    rewrite booked_seats_middle, Z.eqb_refl in Hsum. simpl. lia.
  - rewrite lookup_alter_ne in Hr' by assumption.
    destruct (Hb _ _ Hr') as [H0 Hsum].
    rewrite booked_seats_middle in Hsum.
    destruct (Z.eqb_spec (Booking.bus b) id); [contradiction | lia].
Qed.

Lemma seats_inv_step o s :
  op_valid o = true -> seats_inv s -> seats_inv (step o s).
Proof.
  destruct o as [now_id now_time req | name | |]; simpl; intros Hv Hs;
    [| apply seats_inv_cancel; assumption | assumption | assumption].
  apply andb_prop in Hv as [_ Hv]. apply seats_inv_create; assumption.
Qed.

Lemma seats_inv_run (ops : list op) s :
  forallb op_valid ops = true -> seats_inv s -> seats_inv (run ops s).
Proof.
  revert s. induction ops as [|o ops IH]; intros s Hv Hs; simpl; [assumption |].
  simpl in Hv. apply andb_prop in Hv as [Ho Hv].
  apply IH; [assumption | apply seats_inv_step; assumption].
Qed.

Lemma seats_inv_reachable s : reachable s -> seats_inv s.
Proof.
  intros (ops & Hv & <-). apply seats_inv_run; [assumption | apply seats_inv_init].
Qed.

(** C1. In every state that the public operations reach from the seeded
    buses, every bus has between zero and [total_seats] available seats. *)
Theorem available_seats_in_bounds s (id : Z) (r : Bus.t) :
  reachable s ->
  BusBookingSystem.buses s !! id = Some r ->
  0 <= Bus.available_seats r <= Bus.total_seats r.
Proof.
  intros Hreach Hr.
  destruct (seats_inv_reachable s Hreach) as [Hb Hl].
  destruct (Hb id r Hr) as [H0 Hsum].
  pose proof (booked_seats_nonneg id _ Hl). lia.
Qed.

(** C2. In every state that the public operations reach from the seeded
    buses, the available seats of a bus are its total seats minus the sum
    of the seats of the bookings in the list that refer to it. *)
Theorem available_seats_accounting s (id : Z) (r : Bus.t) :
  reachable s ->
  BusBookingSystem.buses s !! id = Some r ->
  Bus.available_seats r
  = Bus.total_seats r - booked_seats id (BusBookingSystem.bookings s).
Proof.
  intros Hreach Hr.
  destruct (seats_inv_reachable s Hreach) as [Hb _].
  exact (proj2 (Hb id r Hr)).
Qed.

(** C3. A request for more seats than the bus has available is refused
    with "Not enough seats available" (400); the state is the one before
    the call, so the available seats are unchanged and the list of
    bookings has no new entry. *)
Theorem create_booking_insufficient_seats (now_id now_time : datetime.t)
    (req : BookingRequest.t) s (r : Bus.t) :
  BusBookingSystem.get_bus s (BookingRequest.bus_id req) = Some r ->
  Bus.available_seats r < BookingRequest.seats req ->
  let out := BusBookingSystem.create_booking now_id now_time req s in
  out.1 = Raise (HTTPException status.HTTP_400_BAD_REQUEST
                   "Not enough seats available") /\
  out.2 = s /\
  available_seats_of out.2 (BookingRequest.bus_id req)
  = Some (Bus.available_seats r) /\
  BusBookingSystem.bookings out.2 = BusBookingSystem.bookings s.
Proof.
  intros Hr Hlt out. subst out.
  unfold BusBookingSystem.create_booking. rewrite Hr.
  rewrite reserve_seats_false by assumption. simpl.
  repeat split. unfold available_seats_of.
  unfold BusBookingSystem.get_bus in Hr. rewrite Hr. reflexivity.
Qed.

(** C4, as the code has it. [reserve_seats] compares the count with the
    available seats and nothing else: on a bus whose available seats are
    not negative a count of zero or less is accepted, and the available
    seats become [available_seats - count], which is not smaller than
    before. Such a count is kept out earlier, by the validation of
    [BookingRequest]: no valid request carries it. *)
Theorem reserve_seats_nonpositive_accepted (r : Bus.t) (count : Z)
    (req : BookingRequest.t) :
  0 <= Bus.available_seats r ->
  count <= 0 ->
  BookingRequest.valid req = true ->
  Bus.reserve_seats r count
  = (true, Bus.set_available_seats r (Bus.available_seats r - count)) /\
  Bus.available_seats r <= Bus.available_seats (Bus.reserve_seats r count).2 /\
  BookingRequest.seats req <> count.
Proof.
  intros H0 Hc Hv. rewrite reserve_seats_true by lia.
  split; [reflexivity | split; [simpl; lia |]].
  unfold BookingRequest.valid in Hv.
  split_andb Hv. lia.
Qed.

(** C5, as the code has it. An empty name, a name of more than 100
    characters, a seat count of zero or less and a seat count above 30
    are refused by the [Field] constraints when the [BookingRequest] is
    built: no [BookingRequest] carries such a name or such a count.
    [create_booking] checks none of these fields itself. Handed them as
    they are, it decides by the lookup of the bus and by the comparison of
    the seats with the available seats, and by nothing else: "Bus not
    found" (404) when the bus is missing, "Not enough seats available"
    (400) when the seats exceed the available seats, and otherwise it
    books, with that name and that count. *)
Theorem invalid_fields_refused_by_model_only (now_id now_time : datetime.t)
    (name : string) (bus_id seats : Z) s :
  name = EmptyString \/ 100 < len name \/ seats <= 0 \/ 30 < seats ->
  BookingRequest.validate name bus_id seats = None /\
  (forall req : BookingRequest.t,
      BookingRequest.valid req = true ->
      ~ (BookingRequest.name req = name /\ BookingRequest.seats req = seats)) /\
  let out :=
    BusBookingSystem.create_booking now_id now_time
      (BookingRequest.mk name bus_id seats) s in
  match BusBookingSystem.get_bus s bus_id with
  | None => out = (Raise (HTTPException 404 "Bus not found"), s)
  | Some r =>
      if seats <=? Bus.available_seats r
      then
        let r' := Bus.set_available_seats r (Bus.available_seats r - seats) in
        let b := Booking.init name bus_id r' seats now_id now_time in
        out = (Return (Booking.to_response b r'),
               BusBookingSystem.mk (<[bus_id := r']> (BusBookingSystem.buses s))
                 (BusBookingSystem.bookings s ++ [b]))
      else out = (Raise (HTTPException 400 "Not enough seats available"), s)
  end.
Proof.
  intros Hbad. split; [| split].
  - unfold BookingRequest.validate, BookingRequest.valid. simpl.
    destruct Hbad as [-> | [Hlen | [Hs | Hs]]].
    + reflexivity.
    + destruct (Z.leb_spec (len name) 100); [lia |].
      rewrite andb_false_r. reflexivity.
    + destruct (Z.ltb_spec 0 seats); [lia |].
      rewrite andb_false_r. reflexivity.
    + destruct (Z.leb_spec seats 30); [lia |].
      rewrite andb_false_r. reflexivity.
  - intros req Hv [Hname Hseats].
    assert (1 <= len (BookingRequest.name req) <= 100 /\
            1 <= BookingRequest.seats req <= 30) as [Hl Hs'].
    { unfold BookingRequest.valid in Hv. split_andb Hv. lia. }
    rewrite Hname in Hl. rewrite Hseats in Hs'.
    destruct Hbad as [-> | [Hlen | [Hs | Hs]]]; [| lia ..].
    unfold len in Hl. simpl in Hl. lia.
  - intros out. subst out. unfold BusBookingSystem.create_booking. simpl.
    destruct (BusBookingSystem.get_bus s bus_id) as [r|]; [| reflexivity].
    unfold Bus.reserve_seats.
    destruct (seats <=? Bus.available_seats r); reflexivity.
Qed.

(** C6, as the code has it. When no booking already in the list matches
    the name and the bus has no more available seats than total seats (as
    in every reachable state), a successful [create_booking] followed at
    once by [cancel_booking] of the same name succeeds and gives back the
    state before the booking, hence the available seats of the bus. *)
Theorem create_then_cancel_restores (now_id now_time : datetime.t)
    (req : BookingRequest.t) s (r : Bus.t) (resp : BookingResponse.t)
    (s1 : BusBookingSystem.t) :
  BusBookingSystem.get_bus s (BookingRequest.bus_id req) = Some r ->
  Bus.available_seats r <= Bus.total_seats r ->
  Forall (fun b => ~ matches (BookingRequest.name req) b)
    (BusBookingSystem.bookings s) ->
  BusBookingSystem.create_booking now_id now_time req s = (Return resp, s1) ->
  let out := BusBookingSystem.cancel_booking (BookingRequest.name req) s1 in
  out.1 = true /\
  available_seats_of out.2 (BookingRequest.bus_id req)
  = available_seats_of s (BookingRequest.bus_id req) /\
  out.2 = s.
Proof.
  intros Hr Hle Hfresh Hc out. subst out.
  unfold BusBookingSystem.get_bus in Hr.
  destruct (create_booking_cases now_id now_time req s)
    as [[_ Hc'] | [(r0 & _ & _ & Hc') | (r0 & Hr0 & Hseats & Hc')]];
    rewrite Hc' in Hc; try discriminate.
  cbn zeta in Hc. injection Hc as _ <-.
  rewrite Hr in Hr0. injection Hr0 as <-.
  set (r' := Bus.set_available_seats r _).
  set (b := Booking.init _ _ _ _ _ _).
  destruct (cancel_booking_cases (BookingRequest.name req)
              (BusBookingSystem.mk
                 (<[BookingRequest.bus_id req := r']> (BusBookingSystem.buses s))
                 (BusBookingSystem.bookings s ++ [b])))
    as [(pre & b0 & post & Heq & Hpre & Hb0 & ->) | [Hnone _]]; simpl in *.
  - assert (pre = BusBookingSystem.bookings s /\ b0 = b /\ post = []) as (-> & -> & ->).
    { destruct post as [|p post].
      - apply app_inj_tail in Heq as [<- <-]. auto.
      - exfalso. change (pre ++ b0 :: p :: post)
          with (pre ++ [b0] ++ p :: post) in Heq.
        rewrite app_assoc in Heq.
        destruct (@exists_last _ (p :: post) ltac:(discriminate))
          as (post' & z & Hz).
        rewrite Hz, app_assoc in Heq.
        apply app_inj_tail in Heq as [Hs _]. rewrite Hs in Hfresh.
        apply Forall_app in Hfresh as [Hfresh _].
        apply Forall_app in Hfresh as [_ Hfresh].
        inversion Hfresh as [|? ? Hn _]. exact (Hn Hb0). }
    assert (alter (fun x => Bus.release_seats x (Booking.seats b))
              (Booking.bus b)
              (<[BookingRequest.bus_id req := r']> (BusBookingSystem.buses s))
            = BusBookingSystem.buses s) as Hbuses.
    { simpl. rewrite alter_insert_eq.
      assert (Bus.release_seats r' (BookingRequest.seats req) = r) as ->.
      { unfold Bus.release_seats, r'. destruct r; simpl in *.
        f_equal. lia. }
      apply insert_id. exact Hr. }
    rewrite Hbuses, app_nil_r. destruct s; simpl. repeat split.
  - exfalso. apply Forall_app in Hnone as [_ Hnone].
    inversion Hnone as [|? ? Hn _]. apply Hn. reflexivity.
Qed.

(** C7. [cancel_booking] compares the lowered names. When it reports
    success, the list splits around the first booking that matches:
    nothing before it matches, it is the one entry removed, and everything
    after it, matching or not, stays in place. When it reports failure no
    booking matches and the list is unchanged. Either way the list loses
    at most one entry. *)
Theorem cancel_booking_first_match name s :
  let out := BusBookingSystem.cancel_booking name s in
  (if out.1
   then exists pre b post,
       BusBookingSystem.bookings s = pre ++ b :: post /\
       Forall (fun x => lower (Booking.name x) <> lower name) pre /\
       lower (Booking.name b) = lower name /\
       BusBookingSystem.bookings out.2 = pre ++ post
   else Forall (fun x => lower (Booking.name x) <> lower name)
          (BusBookingSystem.bookings s) /\
        BusBookingSystem.bookings out.2 = BusBookingSystem.bookings s) /\
  (length (BusBookingSystem.bookings s)
   <= S (length (BusBookingSystem.bookings out.2)))%nat.
Proof.
  intros out. subst out.
  destruct (cancel_booking_cases name s)
    as [(pre & b & post & Heq & Hpre & Hb & ->) | [Hnone ->]]; simpl.
  - split.
    + exists pre, b, post. repeat split; assumption.
    + rewrite Heq, !length_app. simpl. lia.
  - split; [split; [assumption | reflexivity] | lia].
Qed.

(** C8. When no booking matches the name, [cancel_booking] returns
    [False] and the state, bookings and buses alike, is the one before the
    call; the endpoint turns the answer into "Booking not found" (404). *)
Theorem cancel_booking_not_found name s :
  Forall (fun b => ~ matches name b) (BusBookingSystem.bookings s) ->
  BusBookingSystem.cancel_booking name s = (false, s) /\
  Api.cancel_booking (CancelRequest.mk name) s
  = (Raise (HTTPException status.HTTP_404_NOT_FOUND "Booking not found"), s).
Proof.
  intros Hnone.
  assert (BusBookingSystem.cancel_booking name s = (false, s)) as Hc.
  { destruct (cancel_booking_cases name s)
      as [(pre & b & post & Heq & _ & Hb & _) | [_ Hc]]; [| exact Hc].
    exfalso. rewrite Heq in Hnone. apply Forall_app in Hnone as [_ Hnone].
    inversion Hnone as [|? ? Hn _]. exact (Hn Hb). }
  split; [exact Hc |].
  unfold Api.cancel_booking. simpl. rewrite Hc. reflexivity.
Qed.

(** C10. A successful [cancel_booking] removes one entry of the list and
    keeps the others as they were and in their order; the bus that the
    removed booking refers to changes in its available seats only, and no
    other bus changes at all. *)
Theorem cancel_booking_frame name s (s' : BusBookingSystem.t) :
  BusBookingSystem.cancel_booking name s = (true, s') ->
  exists pre b post,
    BusBookingSystem.bookings s = pre ++ b :: post /\
    BusBookingSystem.bookings s' = pre ++ post /\
    (forall id, id <> Booking.bus b ->
       BusBookingSystem.buses s' !! id = BusBookingSystem.buses s !! id) /\
    match BusBookingSystem.buses s !! Booking.bus b with
    | Some r =>
        exists r', BusBookingSystem.buses s' !! Booking.bus b = Some r' /\
          same_bus_but_seats r r' /\
          Bus.available_seats r'
          = Z.min (Bus.available_seats r + Booking.seats b) (Bus.total_seats r)
    | None => BusBookingSystem.buses s' !! Booking.bus b = None
    end.
Proof.
  intros Hc.
  destruct (cancel_booking_cases name s)
    as [(pre & b & post & Heq & _ & _ & Hc') | [_ Hc']];
    rewrite Hc' in Hc; [| discriminate].
  injection Hc as <-. exists pre, b, post. simpl.
  split; [exact Heq | split; [reflexivity | split]].
  - intros id Hne. apply lookup_alter_ne. congruence.
  - rewrite lookup_alter_eq.
    destruct (BusBookingSystem.buses s !! Booking.bus b) as [r|]; simpl;
      [| reflexivity].
    eexists. split; [reflexivity |]. split; [| reflexivity].
    repeat split.
Qed.

(** ** Booking identifiers *)

Lemma digit_inj (a b : Z) :
  datetime.digit a = datetime.digit b -> a mod 10 = b mod 10.
Proof.
  unfold datetime.digit. intros Heq.
  apply (f_equal N_of_ascii) in Heq.
  pose proof (Z.mod_pos_bound a 10 eq_refl).
  pose proof (Z.mod_pos_bound b 10 eq_refl).
  rewrite !N_ascii_embedding in Heq by lia. lia.
Qed.

Lemma String_inj (c c' : ascii) (k k' : string) :
  String c k = String c' k' -> c = c' /\ k = k'.
Proof. intros Heq. injection Heq. auto. Qed.

Lemma pad2_inj (a b : Z) (k k' : string) :
  0 <= a < 100 -> 0 <= b < 100 ->
  datetime.pad2 a k = datetime.pad2 b k' -> a = b /\ k = k'.
Proof.
  intros Ha Hb Heq. unfold datetime.pad2 in Heq.
  apply String_inj in Heq as [H1 Heq]. apply String_inj in Heq as [H0 Hk].
  apply digit_inj in H1, H0.
  split; [| exact Hk]. Z.to_euclidean_division_equations. lia.
Qed.

Lemma pad4_inj (a b : Z) (k k' : string) :
  0 <= a < 10000 -> 0 <= b < 10000 ->
  datetime.pad4 a k = datetime.pad4 b k' -> a = b /\ k = k'.
Proof.
  intros Ha Hb Heq. unfold datetime.pad4, datetime.pad2 in Heq.
  apply String_inj in Heq as [H3 Heq]. apply String_inj in Heq as [H2 Heq].
  apply String_inj in Heq as [H1 Heq]. apply String_inj in Heq as [H0 Hk].
  apply digit_inj in H3, H2, H1, H0.
  split; [| exact Hk]. Z.to_euclidean_division_equations. lia.
Qed.

Lemma datetime_valid_ranges (d : datetime.t) :
  datetime.valid d = true ->
  0 <= datetime.year d < 10000 /\ 0 <= datetime.month d < 100 /\
  0 <= datetime.day d < 100 /\ 0 <= datetime.hour d < 100 /\
  0 <= datetime.minute d < 100 /\ 0 <= datetime.second d < 100.
Proof.
  unfold datetime.valid. intros Hv.
  split_andb Hv. lia.
Qed.

Lemma strftime_YmdHMS_inj (d1 d2 : datetime.t) :
  datetime.valid d1 = true -> datetime.valid d2 = true ->
  datetime.strftime_YmdHMS d1 = datetime.strftime_YmdHMS d2 ->
  datetime.to_second d1 = datetime.to_second d2.
Proof.
  intros H1 H2 Heq.
  apply datetime_valid_ranges in H1 as (? & ? & ? & ? & ? & ?).
  apply datetime_valid_ranges in H2 as (? & ? & ? & ? & ? & ?).
  unfold datetime.strftime_YmdHMS in Heq.
  apply pad4_inj in Heq as [HY Heq]; [| assumption ..].
  apply pad2_inj in Heq as [Hm Heq]; [| assumption ..].
  apply pad2_inj in Heq as [Hd Heq]; [| assumption ..].
  apply pad2_inj in Heq as [HH Heq]; [| assumption ..].
  apply pad2_inj in Heq as [HM Heq]; [| assumption ..].
  apply pad2_inj in Heq as [HS _]; [| assumption ..].
  unfold datetime.to_second. congruence.
Qed.

Lemma booking_id_of_second (name : string) (bus : Z) (r : Bus.t) (seats : Z)
    (d1 d2 e1 e2 : datetime.t) :
  datetime.to_second d1 = datetime.to_second d2 ->
  Booking.booking_id (Booking.init name bus r seats d1 e1)
  = Booking.booking_id (Booking.init name bus r seats d2 e2).
Proof.
  unfold datetime.to_second. intros Heq. injection Heq as HY Hm Hd HH HM HS.
  unfold Booking.init, datetime.strftime_YmdHMS. simpl.
  rewrite HY, Hm, Hd, HH, HM, HS. reflexivity.
Qed.

Lemma create_seconds_elem (ops : list op) (d e : datetime.t)
    (q : BookingRequest.t) :
  CreateBooking d e q ∈ ops -> datetime.to_second d ∈ create_seconds ops.
Proof.
  induction ops as [|o ops IH]; intros Hin; [inversion Hin |].
  apply elem_of_cons in Hin as [<- | Hin]; simpl; [left |].
  destruct o; try (apply IH; assumption). right. apply IH. assumption.
Qed.

Lemma op_valid_elem (ops : list op) o :
  forallb op_valid ops = true -> o ∈ ops -> op_valid o = true.
Proof.
  intros Hv Hin. rewrite forallb_forall in Hv. apply Hv.
  apply list_elem_of_In. assumption.
Qed.

(** How one operation changes the identifiers in the list. *)
Lemma booking_ids_step o s :
  match o with
  | CreateBooking now_id _ _ =>
      Booking.booking_id <$> BusBookingSystem.bookings (step o s)
      = Booking.booking_id <$> BusBookingSystem.bookings s
      \/ Booking.booking_id <$> BusBookingSystem.bookings (step o s)
         = (Booking.booking_id <$> BusBookingSystem.bookings s)
           ++ [String.append "BK" (datetime.strftime_YmdHMS now_id)]
  | _ =>
      (Booking.booking_id <$> BusBookingSystem.bookings (step o s))
      `sublist_of` (Booking.booking_id <$> BusBookingSystem.bookings s)
  end.
Proof.
  destruct o as [now_id now_time req | name | |]; simpl; try reflexivity.
  - destruct (create_booking_cases now_id now_time req s)
      as [[_ ->] | [(r & _ & _ & ->) | (r & _ & _ & ->)]]; simpl; auto.
    right. rewrite fmap_app. reflexivity.
  - destruct (cancel_booking_cases name s)
      as [(pre & b & post & Heq & _ & _ & ->) | [_ ->]]; simpl;
      [| reflexivity].
    rewrite Heq, !fmap_app, fmap_cons.
    apply sublist_app; [reflexivity |]. apply sublist_cons. reflexivity.
Qed.

Lemma booking_ids_run (ops : list op) s :
  forallb op_valid ops = true ->
  NoDup (create_seconds ops) ->
  NoDup (Booking.booking_id <$> BusBookingSystem.bookings s) ->
  (forall now_id now_time req,
      CreateBooking now_id now_time req ∈ ops ->
      String.append "BK" (datetime.strftime_YmdHMS now_id)
      ∉ Booking.booking_id <$> BusBookingSystem.bookings s) ->
  NoDup (Booking.booking_id <$> BusBookingSystem.bookings (run ops s)).
Proof.
  revert s. induction ops as [|o ops IH]; intros s Hv Hsec Hnd Hfresh; simpl;
    [assumption |].
  simpl in Hv. apply andb_prop in Hv as [Ho Hv].
  pose proof (booking_ids_step o s) as Hstep.
  destruct o as [now_id now_time req | name | |].
  - simpl in Hsec. apply NoDup_cons in Hsec as [Hnew Hsec].
    simpl in Ho. apply andb_prop in Ho as [Ho _].
    apply andb_prop in Ho as [Hnow _].
    apply IH; [assumption | assumption | |].
    + destruct Hstep as [-> | ->]; [assumption |].
      apply NoDup_app. split; [assumption |].
      split; [| apply NoDup_singleton].
      intros x Hx Hx'. apply list_elem_of_singleton in Hx' as ->.
      apply (Hfresh now_id now_time req); [left | assumption].
    + intros d e q Hin.
      assert (String.append "BK" (datetime.strftime_YmdHMS d)
              ∉ Booking.booking_id <$> BusBookingSystem.bookings s) as Hold
        by (apply (Hfresh d e q); right; assumption).
      destruct Hstep as [-> | ->]; [assumption |].
      rewrite elem_of_app. intros [Hin' | Hin']; [contradiction |].
      apply list_elem_of_singleton in Hin'. simpl in Hin'.
      apply String_inj in Hin' as [_ Hin']. apply String_inj in Hin' as [_ Hin'].
      apply Hnew.
      assert (datetime.valid d = true) as Hd.
      { pose proof (op_valid_elem _ _ Hv Hin) as Hq. simpl in Hq.
        apply andb_prop in Hq as [Hq _]. apply andb_prop in Hq as [Hq _].
        exact Hq. }
      rewrite <- (strftime_YmdHMS_inj d now_id Hd Hnow Hin').
      eapply create_seconds_elem. eassumption.
  - apply IH; [assumption | assumption | |].
    + eapply sublist_NoDup; eassumption.
    + intros d e q Hin Hin'. apply (Hfresh d e q); [right; assumption |].
      eapply elem_of_sublist; eassumption.
  - apply IH; try assumption.
    intros d e q Hin. apply (Hfresh d e q). right. assumption.
  - apply IH; try assumption.
    intros d e q Hin. apply (Hfresh d e q). right. assumption.
Qed.

(** C9, as the code has it. The identifier of a booking is "BK" followed
    by the clock reading printed to the second. In a state reached by a
    run whose [create_booking] calls read pairwise distinct clock seconds,
    the identifiers of the bookings in the list are pairwise distinct. *)
Theorem booking_ids_distinct_across_seconds (ops : list op) :
  forallb op_valid ops = true ->
  NoDup (create_seconds ops) ->
  NoDup (Booking.booking_id
           <$> BusBookingSystem.bookings (run ops BusBookingSystem.init)).
Proof.
  intros Hv Hsec. apply booking_ids_run; [assumption | assumption | |].
  - simpl. constructor.
  - intros d e q _ Hin. simpl in Hin. inversion Hin.
Qed.

End properties.


(** * The model on the seeded buses *)

(** ** Scenarios *)

Example buses_listed_in_order :
  BusResponse.bus_id <$> BusBookingSystem.get_all_buses BusBookingSystem.init
  = [1; 2; 3].
Proof. vm_compute. reflexivity. Qed.

Example alice_books_five :
  exists resp,
    BusBookingSystem.create_booking t0 t0 alice BusBookingSystem.init
    = (Return resp, s_alice) /\
    BookingResponse.total_fare resp = 2500 /\
    BookingResponse.booking_id resp = "BK20240517093015"%string /\
    available_seats_of s_alice 1 = Some 25.
Proof. eexists. repeat split. Qed.

Example bob_is_refused :
  BusBookingSystem.create_booking t1 t1 bob s_alice
  = (Raise (HTTPException 400 "Not enough seats available"), s_alice).
Proof. reflexivity. Qed.

Example alice_cancels_in_lower_case :
  BusBookingSystem.cancel_booking "alice" s_alice = (true, BusBookingSystem.init)
  /\ BusBookingSystem.cancel_booking "Alice" BusBookingSystem.init
     = (false, BusBookingSystem.init).
Proof. split; reflexivity. Qed.

Example carol_cancels_first_booking_only :
  Booking.seats <$> BusBookingSystem.bookings s_carol = [2; 3] /\
  Booking.seats
    <$> BusBookingSystem.bookings (BusBookingSystem.cancel_booking "Carol" s_carol).2
  = [3] /\
  available_seats_of (BusBookingSystem.cancel_booking "Carol" s_carol).2 1
  = Some 27.
Proof. repeat split. Qed.

(** Without the validation of [BookingRequest] the bounds are lost: a
    request for minus five seats leaves bus 1 with 35 of 30 seats. *)
Example unvalidated_count_breaks_bounds :
  available_seats_of
    (BusBookingSystem.create_booking t0 t0 (BookingRequest.mk "Eve" 1 (-5))
       BusBookingSystem.init).2 1
  = Some 35.
Proof. reflexivity. Qed.

(** ** The theorems at concrete inputs *)

Lemma s_alice_reachable : reachable s_alice.
Proof. exists [CreateBooking t0 t0 alice]. split; reflexivity. Defined.

Lemma available_seats_in_bounds_witness :
  reachable s_alice /\
  BusBookingSystem.buses s_alice !! 1 = Some (Bus.set_available_seats bus1 25) /\
  0 <= 25 <= 30.
Proof.
  split; [exact s_alice_reachable | split; [reflexivity |]].
  exact (available_seats_in_bounds s_alice 1 (Bus.set_available_seats bus1 25)
           s_alice_reachable eq_refl).
Defined.

Lemma available_seats_accounting_witness :
  reachable s_alice /\
  BusBookingSystem.buses s_alice !! 1 = Some (Bus.set_available_seats bus1 25) /\
  25 = 30 - booked_seats 1 (BusBookingSystem.bookings s_alice).
Proof.
  split; [exact s_alice_reachable | split; [reflexivity |]].
  exact (available_seats_accounting s_alice 1 (Bus.set_available_seats bus1 25)
           s_alice_reachable eq_refl).
Defined.

Lemma create_booking_insufficient_seats_witness :
  let out := BusBookingSystem.create_booking t1 t1 bob s_alice in
  out.1 = Raise (HTTPException 400 "Not enough seats available") /\
  out.2 = s_alice /\
  available_seats_of out.2 1 = Some 25 /\
  BusBookingSystem.bookings out.2 = BusBookingSystem.bookings s_alice.
Proof.
  apply (create_booking_insufficient_seats t1 t1 bob s_alice
           (Bus.set_available_seats bus1 25)).
  - reflexivity.
  - simpl. lia.
Defined.

Lemma reserve_seats_nonpositive_accepted_witness :
  Bus.reserve_seats bus1 (-5) = (true, Bus.set_available_seats bus1 35) /\
  30 <= 35 /\
  5 <> -5.
Proof.
  apply (reserve_seats_nonpositive_accepted bus1 (-5) alice).
  - simpl. lia.
  - lia.
  - reflexivity.
Defined.

Lemma invalid_fields_refused_by_model_only_witness :
  BookingRequest.validate "" 1 5 = None /\
  (forall req : BookingRequest.t,
      BookingRequest.valid req = true ->
      ~ (BookingRequest.name req = ""%string /\ BookingRequest.seats req = 5)) /\
  BusBookingSystem.create_booking t0 t0 (BookingRequest.mk "" 1 5)
    BusBookingSystem.init
  = (Return
       (Booking.to_response
          (Booking.init "" 1 (Bus.set_available_seats bus1 25) 5 t0 t0)
          (Bus.set_available_seats bus1 25)),
     BusBookingSystem.mk
       (<[1 := Bus.set_available_seats bus1 25]>
          (BusBookingSystem.buses BusBookingSystem.init))
       [Booking.init "" 1 (Bus.set_available_seats bus1 25) 5 t0 t0]).
Proof.
  apply (invalid_fields_refused_by_model_only t0 t0 "" 1 5
           BusBookingSystem.init).
  left. reflexivity.
Defined.

Lemma create_then_cancel_restores_witness :
  let out := BusBookingSystem.cancel_booking "Alice" s_alice in
  out.1 = true /\
  available_seats_of out.2 1 = available_seats_of BusBookingSystem.init 1 /\
  out.2 = BusBookingSystem.init.
Proof.
  apply (create_then_cancel_restores t0 t0 alice BusBookingSystem.init bus1
           (Booking.to_response
              (Booking.init "Alice" 1 (Bus.set_available_seats bus1 25) 5 t0 t0)
              (Bus.set_available_seats bus1 25))
           s_alice).
  - reflexivity.
  - simpl. lia.
  - constructor.
  - reflexivity.
Defined.

Lemma cancel_booking_not_found_witness :
  BusBookingSystem.cancel_booking "Bob" s_alice = (false, s_alice) /\
  Api.cancel_booking (CancelRequest.mk "Bob") s_alice
  = (Raise (HTTPException 404 "Booking not found"), s_alice).
Proof.
  apply (cancel_booking_not_found "Bob" s_alice).
  constructor; [| constructor].
  unfold matches. vm_compute. discriminate.
Defined.

Lemma booking_ids_distinct_across_seconds_witness :
  NoDup (Booking.booking_id
           <$> BusBookingSystem.bookings
                 (run [CreateBooking t0 t0 alice; CreateBooking t1 t1 dave]
                    BusBookingSystem.init)).
Proof.
  apply (booking_ids_distinct_across_seconds
           [CreateBooking t0 t0 alice; CreateBooking t1 t1 dave]).
  - reflexivity.
  - simpl. apply NoDup_cons. split; [| apply NoDup_singleton].
    intros Hin. apply list_elem_of_singleton in Hin. discriminate Hin.
Defined.

Lemma cancel_booking_frame_witness :
  exists pre b post,
    BusBookingSystem.bookings s_carol = pre ++ b :: post /\
    BusBookingSystem.bookings (BusBookingSystem.cancel_booking "carol" s_carol).2
    = pre ++ post /\
    (forall id, id <> Booking.bus b ->
       BusBookingSystem.buses (BusBookingSystem.cancel_booking "carol" s_carol).2
         !! id
       = BusBookingSystem.buses s_carol !! id) /\
    match BusBookingSystem.buses s_carol !! Booking.bus b with
    | Some r =>
        exists r',
          BusBookingSystem.buses
            (BusBookingSystem.cancel_booking "carol" s_carol).2
            !! Booking.bus b = Some r' /\
          same_bus_but_seats r r' /\
          Bus.available_seats r'
          = Z.min (Bus.available_seats r + Booking.seats b) (Bus.total_seats r)
    | None =>
        BusBookingSystem.buses
          (BusBookingSystem.cancel_booking "carol" s_carol).2
          !! Booking.bus b = None
    end.
Proof.
  apply (cancel_booking_frame "carol" s_carol). reflexivity.
Defined.

(** ** Where the code departs from the specification *)

(** C4. Bus 1 has 30 available seats; [reserve_seats] with a count of
    minus five reports success and leaves it with 35. *)
Lemma reserve_seats_accepts_negative_count :
  Bus.reserve_seats bus1 (-5) = (true, Bus.set_available_seats bus1 35) /\
  ~ ((Bus.reserve_seats bus1 (-5)).1 = false /\
     Bus.available_seats (Bus.reserve_seats bus1 (-5)).2
     = Bus.available_seats bus1).
Proof.
  split; [reflexivity |]. intros [Hr _]. discriminate Hr.
Qed.

(** C5. Handed a request with an empty name, [create_booking] books: it
    returns a response, takes five seats of bus 1 and appends a booking. *)
Lemma create_booking_accepts_empty_name :
  let out :=
    BusBookingSystem.create_booking t0 t0 (BookingRequest.mk "" 1 5)
      BusBookingSystem.init in
  (exists resp, out.1 = Return resp) /\
  available_seats_of out.2 1 = Some 25 /\
  length (BusBookingSystem.bookings out.2) = 1%nat /\
  ~ ((exists e, out.1 = Raise e) /\ out.2 = BusBookingSystem.init).
Proof.
  cbv zeta. split; [eexists; reflexivity |].
  split; [reflexivity | split; [reflexivity |]].
  intros [[e He] _]. discriminate He.
Qed.

(** C6. Carol holds three seats of bus 2. A booking of five seats of bus 1
    under the name carol succeeds, and the cancellation of carol that
    follows succeeds too, but it removes the older booking: bus 1 keeps 25
    available seats instead of the 30 it had. *)
Lemma roundtrip_cancels_earlier_namesake :
  reachable s_namesake /\
  exists resp s1,
    BusBookingSystem.create_booking t1 t1 (BookingRequest.mk "carol" 1 5)
      s_namesake = (Return resp, s1) /\
    available_seats_of s_namesake 1 = Some 30 /\
    available_seats_of (BusBookingSystem.cancel_booking "carol" s1).2 1
    = Some 25 /\
    ~ ((BusBookingSystem.cancel_booking "carol" s1).1 = true /\
       available_seats_of (BusBookingSystem.cancel_booking "carol" s1).2 1
       = available_seats_of s_namesake 1).
Proof.
  split.
  - exists [CreateBooking t0 t0 (BookingRequest.mk "Carol" 2 3)].
    split; reflexivity.
  - eexists. eexists. split; [reflexivity |].
    split; [reflexivity | split; [reflexivity |]].
    intros [_ Heq]. vm_compute in Heq. discriminate Heq.
Qed.

(** C9. Two bookings requested within one clock second get the same
    identifier. *)
Lemma booking_ids_collide_within_a_second :
  reachable s_same_second /\
  Booking.booking_id <$> BusBookingSystem.bookings s_same_second
  = ["BK20240517093015"%string; "BK20240517093015"%string] /\
  ~ NoDup (Booking.booking_id <$> BusBookingSystem.bookings s_same_second).
Proof.
  split; [| split].
  - exists [CreateBooking t0 t0 alice; CreateBooking t0' t0' dave].
    split; reflexivity.
  - reflexivity.
  - intros Hnd. vm_compute in Hnd.
    apply NoDup_cons in Hnd as [Hnin _]. apply Hnin. left.
Qed.

(** * Further properties of the operations *)

Section operations.

Context `{!Lower}.

Implicit Types (s : BusBookingSystem.t) (l pre post : list Booking.t).
Implicit Types (b : Booking.t) (name : string) (o : op).

(** ** One bus *)

(** X1. On a bus that has no more available seats than total seats, a
    reservation that succeeds followed by the release of the same count
    gives back the bus as it was. *)
Theorem reserve_then_release (r r' : Bus.t) (seats : Z) :
  Bus.available_seats r <= Bus.total_seats r ->
  Bus.reserve_seats r seats = (true, r') ->
  Bus.release_seats r' seats = r.
Proof.
  intros Hle Hres. unfold Bus.reserve_seats in Hres.
  destruct (seats <=? Bus.available_seats r); [| discriminate].
  injection Hres as <-. destruct r as [i ro ti fa tot av]. simpl in *.
  unfold Bus.release_seats, Bus.set_available_seats. simpl.
  f_equal. lia.
Qed.

(** ** The scan, when the first match is known *)

Lemma first_match_none name (i : nat) l :
  Forall (fun x => ~ matches name x) l ->
  BusBookingSystem.first_match name i l = None.
Proof.
  intros Hl. revert i. induction Hl as [|a l Ha _ IH]; intros i; simpl;
    [reflexivity |].
  destruct (String.eqb_spec (lower (Booking.name a)) (lower name));
    [contradiction | apply IH].
Qed.

Lemma first_match_split name (i : nat) pre b post :
  Forall (fun x => ~ matches name x) pre -> matches name b ->
  BusBookingSystem.first_match name i (pre ++ b :: post)
  = Some ((i + length pre)%nat, b).
Proof.
  intros Hpre Hb. revert i. induction Hpre as [|a pre Ha _ IH]; intros i; simpl.
  - unfold matches in Hb. rewrite Hb, String.eqb_refl. f_equal. f_equal. lia.
  - destruct (String.eqb_spec (lower (Booking.name a)) (lower name));
      [contradiction |].
    rewrite IH. f_equal. f_equal. lia.
Qed.

Lemma cancel_booking_split name s pre b post :
  BusBookingSystem.bookings s = pre ++ b :: post ->
  Forall (fun x => ~ matches name x) pre -> matches name b ->
  BusBookingSystem.cancel_booking name s
  = (true,
     BusBookingSystem.mk
       (alter (fun r => Bus.release_seats r (Booking.seats b))
          (Booking.bus b) (BusBookingSystem.buses s))
       (pre ++ post)).
Proof.
  intros Heq Hpre Hb. unfold BusBookingSystem.cancel_booking.
  rewrite Heq, (first_match_split name 0 pre b post Hpre Hb). simpl.
  rewrite delete_middle. reflexivity.
Qed.

(** ** [create_booking] *)

(** X2. A request for a bus that is not in the dictionary is refused with
    "Bus not found" (404), whatever its seats, and the state is the one
    before the call. *)
Theorem create_booking_unknown_bus (now_id now_time : datetime.t)
    (req : BookingRequest.t) s :
  BusBookingSystem.get_bus s (BookingRequest.bus_id req) = None ->
  BusBookingSystem.create_booking now_id now_time req s
  = (Raise (HTTPException status.HTTP_404_NOT_FOUND "Bus not found"), s).
Proof.
  intros Hnone. unfold BusBookingSystem.create_booking. rewrite Hnone.
  reflexivity.
Qed.

(** X3. [create_booking] returns a response exactly when the bus exists
    and the seats asked for are at most its available seats; in every
    other case it raises and the state is untouched. *)
Theorem create_booking_succeeds_iff (now_id now_time : datetime.t)
    (req : BookingRequest.t) s :
  let out := BusBookingSystem.create_booking now_id now_time req s in
  ((exists resp, out.1 = Return resp) <->
   (exists r, BusBookingSystem.get_bus s (BookingRequest.bus_id req) = Some r /\
              BookingRequest.seats req <= Bus.available_seats r)) /\
  ((exists e, out.1 = Raise e) -> out.2 = s).
Proof.
  intros out. subst out. unfold BusBookingSystem.get_bus.
  destruct (create_booking_cases now_id now_time req s)
    as [[Hn ->] | [(r & Hr & Hlt & ->) | (r & Hr & Hle & ->)]]; cbn zeta; simpl.
  - split; [| reflexivity]. split.
    + intros [resp Hresp]. discriminate Hresp.
    + intros (r & Hr & _). rewrite Hn in Hr. discriminate Hr.
  - split; [| reflexivity]. split.
    + intros [resp Hresp]. discriminate Hresp.
    + intros (r0 & Hr0 & Hle). rewrite Hr in Hr0. injection Hr0 as <-. lia.
  - split.
    + split; [intros _; exists r; split; assumption | intros _; eexists; reflexivity].
    + intros [e He]. discriminate He.
Qed.

(** X4. The response of a successful [create_booking] repeats the name and
    the seats of the request, carries the identifier "BK" followed by the
    clock reading to the second, and describes the bus that was booked:
    its id, route and time, and as total fare the seats times its fare. *)
Theorem create_booking_response (now_id now_time : datetime.t)
    (req : BookingRequest.t) s (r : Bus.t) (resp : BookingResponse.t)
    (s' : BusBookingSystem.t) :
  BusBookingSystem.get_bus s (BookingRequest.bus_id req) = Some r ->
  BusBookingSystem.create_booking now_id now_time req s = (Return resp, s') ->
  resp = BookingResponse.mk
           (String.append "BK" (datetime.strftime_YmdHMS now_id))
           (BookingRequest.name req) (Bus.bus_id r) (Bus.route r) (Bus.time r)
           (BookingRequest.seats req)
           (BookingRequest.seats req * Bus.fare r)
           (datetime.isoformat now_time).
Proof.
  intros Hr Hc. unfold BusBookingSystem.get_bus in Hr.
  destruct (create_booking_cases now_id now_time req s)
    as [[_ Hc'] | [(r0 & _ & _ & Hc') | (r0 & Hr0 & _ & Hc')]];
    rewrite Hc' in Hc; try discriminate.
  rewrite Hr in Hr0. injection Hr0 as <-.
  cbn zeta in Hc. injection Hc as <- _. reflexivity.
Qed.

(** X5. A successful [create_booking] takes exactly the requested seats
    from the requested bus, leaves every other bus as it was, and appends
    one booking at the end of the list, after the bookings that were
    there, which are unchanged. *)
Theorem create_booking_frame (now_id now_time : datetime.t)
    (req : BookingRequest.t) s (r : Bus.t) (resp : BookingResponse.t)
    (s' : BusBookingSystem.t) :
  BusBookingSystem.get_bus s (BookingRequest.bus_id req) = Some r ->
  BusBookingSystem.create_booking now_id now_time req s = (Return resp, s') ->
  available_seats_of s' (BookingRequest.bus_id req)
  = Some (Bus.available_seats r - BookingRequest.seats req) /\
  (forall id, id <> BookingRequest.bus_id req ->
     BusBookingSystem.buses s' !! id = BusBookingSystem.buses s !! id) /\
  exists b,
    BusBookingSystem.bookings s' = BusBookingSystem.bookings s ++ [b] /\
    Booking.name b = BookingRequest.name req /\
    Booking.bus b = BookingRequest.bus_id req /\
    Booking.seats b = BookingRequest.seats req.
Proof.
  intros Hr Hc. unfold BusBookingSystem.get_bus in Hr.
  destruct (create_booking_cases now_id now_time req s)
    as [[_ Hc'] | [(r0 & _ & _ & Hc') | (r0 & Hr0 & _ & Hc')]];
    rewrite Hc' in Hc; try discriminate.
  rewrite Hr in Hr0. injection Hr0 as <-.
  cbn zeta in Hc. injection Hc as _ <-. simpl.
  split; [| split].
  - unfold available_seats_of. simpl. rewrite lookup_insert_eq. reflexivity.
  - intros id Hne. apply lookup_insert_ne. congruence.
  - eexists. split; [reflexivity |]. repeat split.
Qed.

(** ** The buses and the bookings of a reachable state *)

Lemma same_bus_but_seats_set (r0 r : Bus.t) (v : Z) :
  same_bus_but_seats r0 r ->
  same_bus_but_seats r0 (Bus.set_available_seats r v).
Proof. intros Hs. exact Hs. Qed.

Lemma request_valid_bounds (req : BookingRequest.t) :
  BookingRequest.valid req = true ->
  1 <= len (BookingRequest.name req) <= 100 /\
  0 < BookingRequest.bus_id req /\
  1 <= BookingRequest.seats req <= 30.
Proof.
  unfold BookingRequest.valid. intros Hv.
  repeat (apply andb_prop in Hv as [Hv ?]). lia.
Qed.

Lemma catalog_inv_init : catalog_inv BusBookingSystem.init.
Proof.
  intros id. destruct (BusBookingSystem.buses BusBookingSystem.init !! id);
    [repeat split | exact I].
Qed.

Lemma catalog_inv_create (now_id now_time : datetime.t)
    (req : BookingRequest.t) s :
  catalog_inv s ->
  catalog_inv (BusBookingSystem.create_booking now_id now_time req s).2.
Proof.
  intros Hs.
  destruct (create_booking_cases now_id now_time req s)
    as [[_ ->] | [(r & _ & _ & ->) | (r & Hr & _ & ->)]]; try exact Hs.
  cbn zeta. intros id. specialize (Hs id). cbn [BusBookingSystem.buses snd].
  destruct (decide (BookingRequest.bus_id req = id)) as [<- | Hne].
  - rewrite lookup_insert_eq. rewrite Hr in Hs.
    destruct (BusBookingSystem.buses BusBookingSystem.init
                !! BookingRequest.bus_id req); [| exact Hs].
    apply same_bus_but_seats_set. exact Hs.
  - rewrite lookup_insert_ne by assumption. exact Hs.
Qed.

Lemma catalog_inv_cancel name s :
  catalog_inv s -> catalog_inv (BusBookingSystem.cancel_booking name s).2.
Proof.
  intros Hs.
  destruct (cancel_booking_cases name s)
    as [(pre & b & post & _ & _ & _ & ->) | [_ ->]]; [| exact Hs].
  intros id. specialize (Hs id). cbn [BusBookingSystem.buses snd].
  destruct (decide (Booking.bus b = id)) as [<- | Hne].
  - rewrite lookup_alter_eq.
    destruct (BusBookingSystem.buses s !! Booking.bus b) as [r|];
      cbn [fmap option_fmap option_map]; [| exact Hs].
    destruct (BusBookingSystem.buses BusBookingSystem.init !! Booking.bus b);
      [| exact Hs].
    unfold Bus.release_seats. apply same_bus_but_seats_set. exact Hs.
  - rewrite lookup_alter_ne by assumption. exact Hs.
Qed.

Lemma booking_wf_mono s (s' : BusBookingSystem.t) b :
  (forall id r, BusBookingSystem.buses s !! id = Some r ->
     exists r', BusBookingSystem.buses s' !! id = Some r' /\
                Bus.fare r' = Bus.fare r) ->
  booking_wf s b -> booking_wf s' b.
Proof.
  intros Hmono (Hseats & Hname & r & Hr & Hfare).
  destruct (Hmono _ _ Hr) as (r' & Hr' & Hf).
  split; [assumption | split; [assumption |]].
  exists r'. split; [assumption | congruence].
Qed.

Lemma ledger_inv_create (now_id now_time : datetime.t)
    (req : BookingRequest.t) s :
  BookingRequest.valid req = true -> ledger_inv s ->
  ledger_inv (BusBookingSystem.create_booking now_id now_time req s).2.
Proof.
  intros Hv Hs. apply request_valid_bounds in Hv as (Hname & _ & Hseats).
  destruct (create_booking_cases now_id now_time req s)
    as [[_ ->] | [(r & _ & _ & ->) | (r & Hr & _ & ->)]]; try exact Hs.
  cbn zeta. unfold ledger_inv. simpl. apply Forall_app. split.
  - eapply Forall_impl; [exact Hs |]. intros b. apply booking_wf_mono.
    simpl. intros id r0 Hr0.
    destruct (decide (BookingRequest.bus_id req = id)) as [<- | Hne].
    + rewrite lookup_insert_eq. eexists. split; [reflexivity |].
      rewrite Hr in Hr0. injection Hr0 as <-. reflexivity.
    + rewrite lookup_insert_ne by assumption. eauto.
  - constructor; [| constructor].
    split; [exact Hseats | split; [exact Hname |]]. simpl.
    rewrite lookup_insert_eq. eexists. split; reflexivity.
Qed.

Lemma ledger_inv_cancel name s :
  ledger_inv s -> ledger_inv (BusBookingSystem.cancel_booking name s).2.
Proof.
  intros Hs.
  destruct (cancel_booking_cases name s)
    as [(pre & b & post & Heq & _ & _ & ->) | [_ ->]]; [| exact Hs].
  unfold ledger_inv in *. simpl. rewrite Heq in Hs.
  apply Forall_app in Hs as [Hpre Hpost]. inversion Hpost as [|? ? _ Hpost'].
  subst. apply Forall_app. split.
  all: eapply Forall_impl; [eassumption |]; intros b0; apply booking_wf_mono;
    simpl; intros id r0 Hr0;
    (destruct (decide (Booking.bus b = id)) as [<- | Hne];
     [rewrite lookup_alter_eq, Hr0; simpl; eexists; split; reflexivity
     | rewrite lookup_alter_ne by assumption; eauto]).
Qed.

Lemma static_inv_run (ops : list op) s :
  forallb op_valid ops = true ->
  catalog_inv s /\ ledger_inv s ->
  catalog_inv (run ops s) /\ ledger_inv (run ops s).
Proof.
  revert s. induction ops as [|o ops IH]; intros s Hv [Hc Hl]; simpl;
    [split; assumption |].
  simpl in Hv. apply andb_prop in Hv as [Ho Hv]. apply IH; [assumption |].
  destruct o as [now_id now_time req | name | |]; simpl;
    [| split; [apply catalog_inv_cancel | apply ledger_inv_cancel]; assumption
     | split; assumption | split; assumption].
  simpl in Ho. apply andb_prop in Ho as [_ Ho].
  split; [apply catalog_inv_create | apply ledger_inv_create]; assumption.
Qed.

Lemma static_inv_reachable s : reachable s -> catalog_inv s /\ ledger_inv s.
Proof.
  intros (ops & Hv & <-). apply static_inv_run; [assumption |].
  split; [apply catalog_inv_init | constructor].
Qed.

Lemma init_lookup (id : Z) (r0 : Bus.t) :
  BusBookingSystem.buses BusBookingSystem.init !! id = Some r0 ->
  (id = 1 \/ id = 2 \/ id = 3) /\ Bus.bus_id r0 = id /\
  Bus.total_seats r0 = 30.
Proof.
  unfold BusBookingSystem.init. simpl. intros Hr.
  repeat (apply lookup_insert_Some in Hr as [[<- <-] | [_ Hr]];
          [simpl; repeat split; auto |]).
  rewrite lookup_empty in Hr. discriminate.
Qed.

Lemma catalog_inv_lookup s (id : Z) :
  catalog_inv s ->
  (is_Some (BusBookingSystem.buses s !! id) <-> id = 1 \/ id = 2 \/ id = 3) /\
  (forall r, BusBookingSystem.buses s !! id = Some r ->
     exists r0,
       BusBookingSystem.buses BusBookingSystem.init !! id = Some r0 /\
       same_bus_but_seats r0 r /\ Bus.bus_id r = id /\
       Bus.total_seats r = 30).
Proof.
  intros Hc. specialize (Hc id).
  destruct (BusBookingSystem.buses BusBookingSystem.init !! id) as [r0|] eqn:H0;
    destruct (BusBookingSystem.buses s !! id) as [r|] eqn:Hr;
    try contradiction.
  - destruct (init_lookup id r0 H0) as (Hid & Hbid & Htot). split.
    + split; [intros _; exact Hid | intros _; eexists; reflexivity].
    + intros r1 Hr1. injection Hr1 as <-. exists r0.
      destruct Hc as (Hb & Hrest). pose proof Hrest as (_ & _ & _ & Ht).
      repeat split; try apply Hrest; congruence.
  - split.
    + split; [intros [x Hx]; discriminate Hx |].
      intros Hid. exfalso.
      assert (is_Some (BusBookingSystem.buses BusBookingSystem.init !! id))
        as [x Hx]
        by (destruct Hid as [-> | [-> | ->]]; eexists; reflexivity).
      rewrite H0 in Hx. discriminate Hx.
    + intros r Hr'. discriminate Hr'.
Qed.

Lemma ledger_inv_elem s b :
  catalog_inv s -> ledger_inv s ->
  b ∈ BusBookingSystem.bookings s ->
  1 <= Booking.seats b <= 30 /\
  1 <= len (Booking.name b) <= 100 /\
  (Booking.bus b = 1 \/ Booking.bus b = 2 \/ Booking.bus b = 3) /\
  exists r, BusBookingSystem.buses s !! Booking.bus b = Some r /\
            Booking.total_fare b = Booking.seats b * Bus.fare r.
Proof.
  intros Hc Hl Hin. unfold ledger_inv in Hl. rewrite Forall_forall in Hl.
  destruct (Hl b Hin) as (Hseats & Hname & r & Hr & Hfare).
  split; [assumption | split; [assumption | split]].
  - apply (catalog_inv_lookup s (Booking.bus b) Hc). eexists. exact Hr.
  - exists r. split; assumption.
Qed.

(** X6. The buses are fixed for the life of the system: in every reachable
    state the dictionary holds exactly the keys 1, 2 and 3, and the bus
    under a key has that key as its id and the route, time, fare and total
    seats of the seeded bus. *)
Theorem catalog_static s (id : Z) :
  reachable s ->
  (is_Some (BusBookingSystem.buses s !! id) <-> id = 1 \/ id = 2 \/ id = 3) /\
  (forall r, BusBookingSystem.buses s !! id = Some r ->
     exists r0,
       BusBookingSystem.buses BusBookingSystem.init !! id = Some r0 /\
       same_bus_but_seats r0 r /\ Bus.bus_id r = id /\
       Bus.total_seats r = 30).
Proof.
  intros Hreach. apply catalog_inv_lookup.
  exact (proj1 (static_inv_reachable s Hreach)).
Qed.

(** X7. In every reachable state [get_all_buses] lists the three seeded
    routes, in the order of their ids and with their seeded route, time
    and fare; the only figure that varies is the number of available
    seats, which is the current one of each bus. *)
Theorem get_all_buses_reachable s :
  reachable s ->
  exists a1 a2 a3,
    available_seats_of s 1 = Some a1 /\
    available_seats_of s 2 = Some a2 /\
    available_seats_of s 3 = Some a3 /\
    BusBookingSystem.get_all_buses s
    = [BusResponse.mk 1 "North Nazimabad - Power House" "09:00 AM" 500 a1;
       BusResponse.mk 2 "KDA - Gulshan" "12:00 PM" 700 a2;
       BusResponse.mk 3 "Ayesha Manzil - Bahria" "05:00 PM" 600 a3].
Proof.
  intros Hreach. pose proof (proj1 (static_inv_reachable s Hreach)) as Hcat.
  assert (forall id, id = 1 \/ id = 2 \/ id = 3 ->
            exists r r0, BusBookingSystem.buses s !! id = Some r /\
              BusBookingSystem.buses BusBookingSystem.init !! id = Some r0 /\
              same_bus_but_seats r0 r) as Hget.
  { intros id Hid. destruct (catalog_inv_lookup s id Hcat) as [Hdom Hsame].
    apply Hdom in Hid as [r Hr]. destruct (Hsame r Hr) as (r0 & H0 & Hs & _).
    exists r, r0. auto. }
  destruct (Hget 1) as (r1 & q1 & Hr1 & Hq1 & Hs1); [auto |].
  destruct (Hget 2) as (r2 & q2 & Hr2 & Hq2 & Hs2); [auto |].
  destruct (Hget 3) as (r3 & q3 & Hr3 & Hq3 & Hs3); [auto |].
  exists (Bus.available_seats r1), (Bus.available_seats r2),
    (Bus.available_seats r3).
  unfold available_seats_of. rewrite Hr1, Hr2, Hr3.
  split; [reflexivity | split; [reflexivity | split; [reflexivity |]]].
  assert (BusBookingSystem.buses s
          = <[1 := r1]> (<[2 := r2]> (<[3 := r3]> ∅))) as Hmap.
  { apply map_eq. intros id.
    destruct (decide (id = 1)) as [-> | N1];
      [rewrite lookup_insert_eq; exact Hr1 |].
    rewrite lookup_insert_ne by congruence.
    destruct (decide (id = 2)) as [-> | N2];
      [rewrite lookup_insert_eq; exact Hr2 |].
    rewrite lookup_insert_ne by congruence.
    destruct (decide (id = 3)) as [-> | N3];
      [rewrite lookup_insert_eq; exact Hr3 |].
    rewrite lookup_insert_ne by congruence. rewrite lookup_empty.
    destruct (catalog_inv_lookup s id Hcat) as [Hdom _].
    destruct (BusBookingSystem.buses s !! id) eqn:E; [| reflexivity].
    exfalso. assert (id = 1 \/ id = 2 \/ id = 3) as Hid
      by (apply Hdom; eexists; reflexivity).
    destruct Hid as [-> | [-> | ->]]; contradiction. }
  unfold BusBookingSystem.get_all_buses. rewrite Hmap.
  injection Hq1 as <-. injection Hq2 as <-. injection Hq3 as <-.
  destruct r1, r2, r3. unfold same_bus_but_seats in *. simpl in *.
  destruct Hs1 as (-> & -> & -> & -> & _).
  destruct Hs2 as (-> & -> & -> & -> & _).
  destruct Hs3 as (-> & -> & -> & -> & _).
  vm_compute. reflexivity.
Qed.

(** X8. Every booking of a reachable state is one that a validated
    request made: between 1 and 30 seats, a name of 1 to 100 characters,
    one of the three buses, which is in the dictionary, and a total fare
    equal to the seats times the fare of that bus. *)
Theorem ledger_well_formed s b :
  reachable s ->
  b ∈ BusBookingSystem.bookings s ->
  1 <= Booking.seats b <= 30 /\
  1 <= len (Booking.name b) <= 100 /\
  (Booking.bus b = 1 \/ Booking.bus b = 2 \/ Booking.bus b = 3) /\
  exists r, BusBookingSystem.buses s !! Booking.bus b = Some r /\
            Booking.total_fare b = Booking.seats b * Bus.fare r.
Proof.
  intros Hreach. destruct (static_inv_reachable s Hreach) as [Hc Hl].
  apply ledger_inv_elem; assumption.
Qed.

(** ** The list of bookings as [get_all_bookings] shows it *)

Lemma get_all_bookings_ext (m m' : gmap Z Bus.t) l :
  (forall id r, m !! id = Some r ->
     exists r', m' !! id = Some r' /\ same_bus_but_seats r r') ->
  (forall id, m !! id = None -> m' !! id = None) ->
  omap (fun b => Booking.to_response b <$> m' !! Booking.bus b) l
  = omap (fun b => Booking.to_response b <$> m !! Booking.bus b) l.
Proof.
  intros Hsome Hnone. induction l as [|b l IH]; [reflexivity |].
  cbn [omap list_omap]. rewrite IH.
  destruct (m !! Booking.bus b) as [r|] eqn:Hr.
  - destruct (Hsome _ _ Hr) as (r' & -> & Hb & Hro & Hti & _).
    simpl. unfold Booking.to_response. rewrite Hb, Hro, Hti. reflexivity.
  - rewrite (Hnone _ Hr). reflexivity.
Qed.

(** X9. In every reachable state [get_all_bookings] shows the bookings
    one for one and in the order of the list: each response is the
    answer of [to_response] for the booking at the same position, read
    through the bus it refers to. *)
Theorem get_all_bookings_reachable s :
  reachable s ->
  Forall2
    (fun b resp =>
       exists r, BusBookingSystem.buses s !! Booking.bus b = Some r /\
                 resp = Booking.to_response b r)
    (BusBookingSystem.bookings s) (BusBookingSystem.get_all_bookings s).
Proof.
  intros Hreach. destruct (static_inv_reachable s Hreach) as [_ Hl].
  unfold ledger_inv in Hl. unfold BusBookingSystem.get_all_bookings.
  induction Hl as [|b l (_ & _ & r & Hr & _) _ IH]; [constructor |].
  cbn [omap list_omap]. rewrite Hr. simpl. constructor; [| exact IH].
  exists r. split; [exact Hr | reflexivity].
Qed.

(** X10. After a successful [create_booking] the listing of the bookings
    is the listing before the call followed by the response that the call
    returned. *)
Theorem get_all_bookings_after_create (now_id now_time : datetime.t)
    (req : BookingRequest.t) s (resp : BookingResponse.t)
    (s' : BusBookingSystem.t) :
  BusBookingSystem.create_booking now_id now_time req s = (Return resp, s') ->
  BusBookingSystem.get_all_bookings s'
  = BusBookingSystem.get_all_bookings s ++ [resp].
Proof.
  intros Hc.
  destruct (create_booking_cases now_id now_time req s)
    as [[_ Hc'] | [(r0 & _ & _ & Hc') | (r & Hr & _ & Hc')]];
    rewrite Hc' in Hc; try discriminate.
  cbn zeta in Hc. injection Hc as <- <-.
  unfold BusBookingSystem.get_all_bookings. cbn [BusBookingSystem.buses
    BusBookingSystem.bookings].
  rewrite omap_app. f_equal.
  - apply get_all_bookings_ext.
    + intros id r0 Hr0.
      destruct (decide (BookingRequest.bus_id req = id)) as [<- | Hne].
      * rewrite lookup_insert_eq. eexists. split; [reflexivity |].
        rewrite Hr in Hr0. injection Hr0 as <-. repeat split.
      * rewrite lookup_insert_ne by assumption. exists r0.
        split; [assumption | repeat split].
    + intros id Hid. rewrite lookup_insert_ne; [assumption |].
      intros <-. rewrite Hr in Hid. discriminate Hid.
  - cbn [omap list_omap]. cbn [Booking.bus Booking.init].
    rewrite lookup_insert_eq. reflexivity.
Qed.

(** X11. In a reachable state a successful [cancel_booking] takes one
    response out of the listing of the bookings, one whose lowered name
    is the lowered argument, and leaves the others as they were and in
    their order. *)
Theorem get_all_bookings_after_cancel name s (s' : BusBookingSystem.t) :
  reachable s ->
  BusBookingSystem.cancel_booking name s = (true, s') ->
  exists (before : list BookingResponse.t) resp after,
    BusBookingSystem.get_all_bookings s = before ++ resp :: after /\
    BusBookingSystem.get_all_bookings s' = before ++ after /\
    lower (BookingResponse.name resp) = lower name.
Proof.
  intros Hreach Hc. destruct (static_inv_reachable s Hreach) as [_ Hl].
  destruct (cancel_booking_cases name s)
    as [(pre & b & post & Heq & _ & Hb & Hc') | [_ Hc']];
    rewrite Hc' in Hc; [| discriminate].
  injection Hc as <-. unfold ledger_inv in Hl. rewrite Heq in Hl.
  apply Forall_app in Hl as [_ Hl]. inversion Hl as [|? ? Hwf _]. subst.
  destruct Hwf as (_ & _ & r & Hr & _).
  set (f := fun x : Booking.t =>
              Booking.to_response x <$> BusBookingSystem.buses s !! Booking.bus x).
  exists (omap f pre), (Booking.to_response b r), (omap f post).
  unfold BusBookingSystem.get_all_bookings.
  cbn [BusBookingSystem.buses BusBookingSystem.bookings].
  rewrite Heq. split; [| split].
  - rewrite omap_app. cbn [omap list_omap]. fold f.
    unfold f at 2. rewrite Hr. reflexivity.
  - rewrite get_all_bookings_ext with (m := BusBookingSystem.buses s).
    + fold f. apply omap_app.
    + intros id r0 Hr0.
      destruct (decide (Booking.bus b = id)) as [<- | Hne].
      * rewrite lookup_alter_eq, Hr0. simpl. eexists.
        split; [reflexivity | repeat split].
      * rewrite lookup_alter_ne by assumption. exists r0.
        split; [assumption | repeat split].
    + intros id Hid.
      destruct (decide (Booking.bus b = id)) as [<- | Hne].
      * rewrite lookup_alter_eq, Hid. reflexivity.
      * rewrite lookup_alter_ne by assumption. exact Hid.
  - exact Hb.
Qed.

(** ** Cancelling *)

(** X12. In a reachable state the clamp of [release_seats] never cuts: a
    successful [cancel_booking] removes the first booking that matches the
    name and gives back to the bus of that booking exactly the seats that
    it held. *)
Theorem cancel_booking_releases_exactly name s (s' : BusBookingSystem.t) :
  reachable s ->
  BusBookingSystem.cancel_booking name s = (true, s') ->
  exists pre b post a,
    BusBookingSystem.bookings s = pre ++ b :: post /\
    Forall (fun x => lower (Booking.name x) <> lower name) pre /\
    lower (Booking.name b) = lower name /\
    BusBookingSystem.bookings s' = pre ++ post /\
    available_seats_of s (Booking.bus b) = Some a /\
    available_seats_of s' (Booking.bus b) = Some (a + Booking.seats b).
Proof.
  intros Hreach Hc.
  destruct (seats_inv_reachable s Hreach) as [Hb Hpos].
  destruct (static_inv_reachable s Hreach) as [_ Hl].
  destruct (cancel_booking_cases name s)
    as [(pre & b & post & Heq & Hpre & Hm & Hc') | [_ Hc']];
    rewrite Hc' in Hc; [| discriminate].
  injection Hc as <-.
  assert (b ∈ BusBookingSystem.bookings s) as Hin.
  { rewrite Heq. apply elem_of_app. right. left. }
  unfold ledger_inv in Hl. rewrite Forall_forall in Hl.
  destruct (Hl b Hin) as (_ & _ & r & Hr & _).
  destruct (Hb _ _ Hr) as [H0 Hsum].
  rewrite Heq in Hsum, Hpos. rewrite booked_seats_middle, Z.eqb_refl in Hsum.
  assert (0 <= booked_seats (Booking.bus b) (pre ++ post)) as Hnn.
  { apply booked_seats_nonneg. apply Forall_app in Hpos as [Hpre' Hpost].
    apply Forall_app. split; [assumption | inversion Hpost; assumption]. }
  exists pre, b, post, (Bus.available_seats r).
  split; [exact Heq | split; [exact Hpre | split; [exact Hm |]]].
  split; [reflexivity |].
  unfold available_seats_of. cbn [BusBookingSystem.buses].
  rewrite lookup_alter_eq, Hr. simpl. split; [reflexivity |].
  f_equal. lia.
Qed.

(** X13. When exactly one booking matches a name, the first
    [cancel_booking] under that name succeeds and removes it, and a
    second one at once after it finds nothing and changes nothing. *)
Theorem cancel_booking_twice name s pre b post :
  BusBookingSystem.bookings s = pre ++ b :: post ->
  Forall (fun x => ~ matches name x) pre ->
  matches name b ->
  Forall (fun x => ~ matches name x) post ->
  let out := BusBookingSystem.cancel_booking name s in
  out.1 = true /\
  BusBookingSystem.bookings out.2 = pre ++ post /\
  BusBookingSystem.cancel_booking name out.2 = (false, out.2).
Proof.
  intros Heq Hpre Hb Hpost out. subst out.
  rewrite (cancel_booking_split name s pre b post Heq Hpre Hb).
  cbn [fst snd BusBookingSystem.bookings].
  split; [reflexivity | split; [reflexivity |]].
  unfold BusBookingSystem.cancel_booking. cbn [BusBookingSystem.bookings].
  rewrite first_match_none; [reflexivity |].
  apply Forall_app. split; assumption.
Qed.

(** ** The size of the list of bookings *)

Lemma length_le_booked_seats l :
  Forall (fun b => 1 <= Booking.seats b /\
                   (Booking.bus b = 1 \/ Booking.bus b = 2 \/ Booking.bus b = 3))
    l ->
  Z.of_nat (length l)
  <= booked_seats 1 l + booked_seats 2 l + booked_seats 3 l.
Proof.
  induction 1 as [|b l [Hs Hbus] _ IH]; [simpl; lia |].
  cbn [length booked_seats]. rewrite Nat2Z.inj_succ.
  destruct Hbus as [-> | [-> | ->]]; simpl; lia.
Qed.

(** X14. The list of bookings of a reachable state never holds more than
    90 entries, and the bookings of one bus never hold more than its 30
    seats: three buses of 30 seats, and no booking of less than a seat. *)
Theorem ledger_bounded s :
  reachable s ->
  (length (BusBookingSystem.bookings s) <= 90)%nat /\
  forall id, booked_seats id (BusBookingSystem.bookings s) <= 30.
Proof.
  intros Hreach.
  destruct (seats_inv_reachable s Hreach) as [Hb Hpos].
  destruct (static_inv_reachable s Hreach) as [Hcat Hled].
  assert (forall id, booked_seats id (BusBookingSystem.bookings s) <= 30)
    as Hcap.
  { intros id.
    destruct (BusBookingSystem.buses s !! id) as [r|] eqn:Hr.
    - destruct (catalog_inv_lookup s id Hcat) as [_ Hsame].
      destruct (Hsame r Hr) as (_ & _ & _ & _ & Htot).
      destruct (Hb id r Hr) as [H0 Hsum]. lia.
    - assert (Forall (fun b => Booking.bus b <> id)
                (BusBookingSystem.bookings s)) as Hnot.
      { rewrite Forall_forall. intros b Hin Hid.
        destruct (ledger_inv_elem s b Hcat Hled Hin)
          as (_ & _ & _ & r & Hr' & _).
        rewrite Hid, Hr in Hr'. discriminate Hr'. }
      clear -Hnot. induction Hnot as [|b l Hne _ IH]; simpl; [lia |].
      destruct (Z.eqb_spec (Booking.bus b) id); [contradiction | lia]. }
  split; [| exact Hcap].
  assert (Z.of_nat (length (BusBookingSystem.bookings s))
          <= booked_seats 1 (BusBookingSystem.bookings s)
             + booked_seats 2 (BusBookingSystem.bookings s)
             + booked_seats 3 (BusBookingSystem.bookings s)) as Hlen.
  { apply length_le_booked_seats. rewrite Forall_forall. intros b Hin.
    destruct (ledger_inv_elem s b Hcat Hled Hin) as (Hs & _ & Hbus & _).
    split; [lia | exact Hbus]. }
  pose proof (Hcap 1). pose proof (Hcap 2). pose proof (Hcap 3). lia.
Qed.

(** ** Identifiers *)

(** X15. Two bookings made at valid clock readings have the same
    identifier exactly when the readings fall in the same second, whatever
    the names, the buses and the seats. *)
Theorem booking_id_same_iff_same_second
    (name name' : string) (bus bus' : Z) (r r' : Bus.t) (seats seats' : Z)
    (d d' e e' : datetime.t) :
  datetime.valid d = true ->
  datetime.valid d' = true ->
  Booking.booking_id (Booking.init name bus r seats d e)
  = Booking.booking_id (Booking.init name' bus' r' seats' d' e')
  <-> datetime.to_second d = datetime.to_second d'.
Proof.
  intros Hd Hd'. split.
  - cbn [Booking.booking_id Booking.init]. intros Heq. simpl in Heq.
    apply String_inj in Heq as [_ Heq]. apply String_inj in Heq as [_ Heq].
    apply strftime_YmdHMS_inj; assumption.
  - intros Heq. unfold datetime.to_second in Heq.
    injection Heq as HY Hm Hday HH HM HS.
    cbn [Booking.booking_id Booking.init]. f_equal.
    unfold datetime.strftime_YmdHMS.
    rewrite HY, Hm, Hday, HH, HM, HS. reflexivity.
Qed.

(** ** The endpoints *)

(** X16. When a booking matches the name of the request, the endpoint
    [cancel_booking] answers "Booking cancelled successfully" and leaves
    the state in which the first match is removed and its seats released. *)
Theorem cancel_endpoint_success (req : CancelRequest.t) s pre b post :
  BusBookingSystem.bookings s = pre ++ b :: post ->
  Forall (fun x => ~ matches (CancelRequest.name req) x) pre ->
  matches (CancelRequest.name req) b ->
  Api.cancel_booking req s
  = (Return "Booking cancelled successfully"%string,
     BusBookingSystem.mk
       (alter (fun r => Bus.release_seats r (Booking.seats b))
          (Booking.bus b) (BusBookingSystem.buses s))
       (pre ++ post)).
Proof.
  intros Heq Hpre Hb. unfold Api.cancel_booking.
  rewrite (cancel_booking_split _ s pre b post Heq Hpre Hb). reflexivity.
Qed.

(** X17. The endpoint [book_ticket] hands on what [create_booking] does:
    the same response or the same 404 or 400, which [error_handler] raises
    again as they are, and the same state. *)
Theorem book_ticket_is_create_booking (now_id now_time : datetime.t)
    (req : BookingRequest.t) s :
  Api.book_ticket now_id now_time req s
  = BusBookingSystem.create_booking now_id now_time req s.
Proof.
  unfold Api.book_ticket.
  destruct (create_booking_cases now_id now_time req s)
    as [[_ ->] | [(r & _ & _ & ->) | (r & _ & _ & ->)]]; reflexivity.
Qed.

End operations.

(** ** The further properties at concrete inputs *)

Lemma reserve_then_release_witness :
  Bus.release_seats (Bus.set_available_seats bus1 25) 5 = bus1.
Proof.
  apply (reserve_then_release bus1 (Bus.set_available_seats bus1 25) 5).
  - simpl. lia.
  - reflexivity.
Defined.

Lemma create_booking_unknown_bus_witness :
  BusBookingSystem.create_booking t0 t0 (BookingRequest.mk "Alice" 7 5)
    BusBookingSystem.init
  = (Raise (HTTPException 404 "Bus not found"), BusBookingSystem.init).
Proof.
  apply (create_booking_unknown_bus t0 t0 (BookingRequest.mk "Alice" 7 5)
           BusBookingSystem.init).
  reflexivity.
Defined.

Lemma create_booking_response_witness :
  exists resp,
    BusBookingSystem.create_booking t0 t0 alice BusBookingSystem.init
    = (Return resp, s_alice) /\
    resp = BookingResponse.mk "BK20240517093015" "Alice" 1
             "North Nazimabad - Power House" "09:00 AM" 5 2500
             "2024-05-17T09:30:15".
Proof.
  eexists. split; [reflexivity |].
  apply (create_booking_response t0 t0 alice BusBookingSystem.init bus1 _
           s_alice); reflexivity.
Defined.

Lemma create_booking_frame_witness :
  available_seats_of s_alice 1 = Some (30 - 5) /\
  (forall id, id <> 1 ->
     BusBookingSystem.buses s_alice !! id
     = BusBookingSystem.buses BusBookingSystem.init !! id) /\
  exists b,
    BusBookingSystem.bookings s_alice
    = BusBookingSystem.bookings BusBookingSystem.init ++ [b] /\
    Booking.name b = "Alice"%string /\ Booking.bus b = 1 /\
    Booking.seats b = 5.
Proof.
  apply (create_booking_frame t0 t0 alice BusBookingSystem.init bus1
           (Booking.to_response
              (Booking.init "Alice" 1 (Bus.set_available_seats bus1 25) 5 t0 t0)
              (Bus.set_available_seats bus1 25))
           s_alice); reflexivity.
Defined.

Lemma catalog_static_witness :
  (is_Some (BusBookingSystem.buses s_alice !! 1) <-> 1 = 1 \/ 1 = 2 \/ 1 = 3) /\
  (forall r, BusBookingSystem.buses s_alice !! 1 = Some r ->
     exists r0,
       BusBookingSystem.buses BusBookingSystem.init !! 1 = Some r0 /\
       same_bus_but_seats r0 r /\ Bus.bus_id r = 1 /\
       Bus.total_seats r = 30).
Proof. exact (catalog_static s_alice 1 s_alice_reachable). Defined.

Lemma get_all_buses_reachable_witness :
  exists a1 a2 a3,
    available_seats_of s_alice 1 = Some a1 /\
    available_seats_of s_alice 2 = Some a2 /\
    available_seats_of s_alice 3 = Some a3 /\
    BusBookingSystem.get_all_buses s_alice
    = [BusResponse.mk 1 "North Nazimabad - Power House" "09:00 AM" 500 a1;
       BusResponse.mk 2 "KDA - Gulshan" "12:00 PM" 700 a2;
       BusResponse.mk 3 "Ayesha Manzil - Bahria" "05:00 PM" 600 a3].
Proof. exact (get_all_buses_reachable s_alice s_alice_reachable). Defined.

Lemma ledger_well_formed_witness :
  let b := Booking.init "Alice" 1 (Bus.set_available_seats bus1 25) 5 t0 t0 in
  1 <= Booking.seats b <= 30 /\
  1 <= len (Booking.name b) <= 100 /\
  (Booking.bus b = 1 \/ Booking.bus b = 2 \/ Booking.bus b = 3) /\
  exists r, BusBookingSystem.buses s_alice !! Booking.bus b = Some r /\
            Booking.total_fare b = Booking.seats b * Bus.fare r.
Proof.
  intros b. apply (ledger_well_formed s_alice b s_alice_reachable).
  apply (proj2 (list_elem_of_singleton b b)). reflexivity.
Defined.

Lemma get_all_bookings_reachable_witness :
  Forall2
    (fun b resp =>
       exists r, BusBookingSystem.buses s_alice !! Booking.bus b = Some r /\
                 resp = Booking.to_response b r)
    (BusBookingSystem.bookings s_alice)
    (BusBookingSystem.get_all_bookings s_alice).
Proof. exact (get_all_bookings_reachable s_alice s_alice_reachable). Defined.

Lemma get_all_bookings_after_create_witness :
  BusBookingSystem.get_all_bookings s_alice
  = BusBookingSystem.get_all_bookings BusBookingSystem.init
    ++ [BookingResponse.mk "BK20240517093015" "Alice" 1
          "North Nazimabad - Power House" "09:00 AM" 5 2500
          "2024-05-17T09:30:15"].
Proof.
  apply (get_all_bookings_after_create t0 t0 alice BusBookingSystem.init).
  reflexivity.
Defined.

Lemma get_all_bookings_after_cancel_witness :
  exists (before : list BookingResponse.t) resp after,
    BusBookingSystem.get_all_bookings s_alice = before ++ resp :: after /\
    BusBookingSystem.get_all_bookings BusBookingSystem.init = before ++ after /\
    lower (BookingResponse.name resp) = lower "alice"%string.
Proof.
  apply (get_all_bookings_after_cancel "alice" s_alice BusBookingSystem.init
           s_alice_reachable).
  reflexivity.
Defined.

Lemma cancel_booking_releases_exactly_witness :
  exists pre b post a,
    BusBookingSystem.bookings s_carol = pre ++ b :: post /\
    Forall (fun x => lower (Booking.name x) <> lower "carol"%string) pre /\
    lower (Booking.name b) = lower "carol"%string /\
    BusBookingSystem.bookings
      (BusBookingSystem.cancel_booking "carol" s_carol).2 = pre ++ post /\
    available_seats_of s_carol (Booking.bus b) = Some a /\
    available_seats_of (BusBookingSystem.cancel_booking "carol" s_carol).2
      (Booking.bus b)
    = Some (a + Booking.seats b).
Proof.
  apply (cancel_booking_releases_exactly "carol" s_carol
           (BusBookingSystem.cancel_booking "carol" s_carol).2).
  - exists [CreateBooking t0 t0 (BookingRequest.mk "Carol" 1 2);
            CreateBooking t1 t1 (BookingRequest.mk "Carol" 1 3)].
    split; reflexivity.
  - reflexivity.
Defined.

Lemma cancel_booking_twice_witness :
  let out := BusBookingSystem.cancel_booking "alice" s_alice in
  out.1 = true /\
  BusBookingSystem.bookings out.2 = [] ++ [] /\
  BusBookingSystem.cancel_booking "alice" out.2 = (false, out.2).
Proof.
  apply (cancel_booking_twice "alice" s_alice []
           (Booking.init "Alice" 1 (Bus.set_available_seats bus1 25) 5 t0 t0)
           []).
  - reflexivity.
  - constructor.
  - reflexivity.
  - constructor.
Defined.

Lemma ledger_bounded_witness :
  (length (BusBookingSystem.bookings s_alice) <= 90)%nat /\
  forall id, booked_seats id (BusBookingSystem.bookings s_alice) <= 30.
Proof. exact (ledger_bounded s_alice s_alice_reachable). Defined.

Lemma booking_id_same_iff_same_second_witness :
  Booking.booking_id (Booking.init "Alice" 1 bus1 5 t0 t0)
  = Booking.booking_id (Booking.init "Dave" 2 bus1 1 t0' t0')
  <-> datetime.to_second t0 = datetime.to_second t0'.
Proof.
  apply (booking_id_same_iff_same_second "Alice" "Dave" 1 2 bus1 bus1 5 1
           t0 t0' t0 t0'); reflexivity.
Defined.

Lemma cancel_endpoint_success_witness :
  Api.cancel_booking (CancelRequest.mk "alice") s_alice
  = (Return "Booking cancelled successfully"%string,
     BusBookingSystem.mk
       (alter (fun r => Bus.release_seats r 5) 1
          (BusBookingSystem.buses s_alice))
       ([] ++ [])).
Proof.
  apply (cancel_endpoint_success (CancelRequest.mk "alice") s_alice []
           (Booking.init "Alice" 1 (Bus.set_available_seats bus1 25) 5 t0 t0)
           []).
  - reflexivity.
  - constructor.
  - reflexivity.
Defined.

Lemma create_booking_succeeds_iff_witness :
  let out := BusBookingSystem.create_booking t1 t1 bob s_alice in
  ((exists resp, out.1 = Return resp) <->
   (exists r, BusBookingSystem.get_bus s_alice (BookingRequest.bus_id bob)
              = Some r /\
              BookingRequest.seats bob <= Bus.available_seats r)) /\
  ((exists e, out.1 = Raise e) -> out.2 = s_alice).
Proof. exact (create_booking_succeeds_iff t1 t1 bob s_alice). Defined.

Lemma book_ticket_is_create_booking_witness :
  Api.book_ticket t1 t1 bob s_alice
  = BusBookingSystem.create_booking t1 t1 bob s_alice.
Proof. exact (book_ticket_is_create_booking t1 t1 bob s_alice). Defined.
